(** * Metrics extraction of the FY2025 research dashboard ([app.py])

    A shallow embedding of [load_data] from [app.py]: the three regular
    expression searches, the conversion of the captured numerals with
    [float], the defaults, the two ratios rounded with [round(_, 2)], the
    difference [rev - az], the two ways the function returns
    ([(record, None)] and [(None, message)]), and the one-entry cache that
    [@st.cache_data] puts in front of it.

    Numbers are Python floats, that is IEEE 754 binary64 values.  They are
    modelled with the Standard Library's [spec_float] (no primitive floats,
    no axioms): division, multiplication and subtraction are [SFdiv],
    [SFmul] and [SFsub] at precision 53 and maximal exponent 1024.

    Text is a [string]: a sequence of characters with code points 0..255,
    read as the first 256 code points of a Python [str].  The character
    classes [\s], [\d] and [.] are the ones Python's [re] module uses on
    [str] patterns, cut down to that range. *)

From Stdlib Require Import ZArith List Bool Ascii String Lia.
From Stdlib Require Import SpecFloat.
Import ListNotations.

Local Open Scope string_scope.
Local Open Scope Z_scope.

(** ** Binary64 values *)

Module Float.

Definition prec : Z := 53.
Definition emax : Z := 1024.

Definition float := spec_float.

Definition div : float -> float -> float := SFdiv prec emax.
Definition mul : float -> float -> float := SFmul prec emax.
Definition sub : float -> float -> float := SFsub prec emax.
Definition leb : float -> float -> bool := SFleb.

Definition zero : float := S754_zero false.

(** [x == 0.0]: true of both signed zeros, false of everything else. *)
Definition is_zero (x : float) : bool :=
  match x with
  | S754_zero _ => true
  | _ => false
  end.

(** [0.0 <= x], the reading of "x >= 0" on floats: false of NaN and of
    every negative value, true of [+inf]. *)
Definition nonneg (x : float) : bool := leb zero x.

(** The binary64 value nearest to the rational [p / q] (round to nearest,
    ties to even), with sign [s].  This is the rounding step of [SFdiv],
    used on numerators and denominators of any size: it is what a correctly
    rounded decimal-to-binary conversion ([strtod]) computes. *)
Definition nearest (s : bool) (p q : positive) : float :=
  let '(m, e, l) := SFdiv_core_binary prec emax (Zpos p) 0 (Zpos q) 0 in
  binary_round_aux prec emax s m e l.

(** The integer nearest to [p / q], ties to even. *)
Definition round_half_even (p : Z) (q : positive) : Z :=
  let '(d, r) := Z.div_eucl p (Zpos q) in
  match Z.compare (2 * r) (Zpos q) with
  | Lt => d
  | Gt => d + 1
  | Eq => if Z.even d then d else d + 1
  end.

(** [round(x, 2)] of a float: NaN and the infinities round to themselves;
    a finite [x] is converted to the decimal with two digits after the
    point that is nearest to its exact value (ties to even), and that
    decimal is converted back to the nearest float.  A value that rounds to
    no hundredths at all gives a zero of the sign of [x]. *)
Definition round2 (x : float) : float :=
  match x with
  | S754_finite s m e =>
      let '(p, q) :=
        match e with
        | Zneg k => (Zpos m * 100, Pos.pow 2 k)
        | _ => (Zpos m * 2 ^ e * 100, 1%positive)
        end in
      match round_half_even p q with
      | Zpos n => nearest s n 100
      | _ => S754_zero s
      end
  | _ => x
  end.

Definition pow10 (k : N) : positive :=
  match k with
  | N0 => 1
  | Npos p => Pos.pow 10 p
  end.

(** The float nearest to the non-negative decimal [n / 10^k]. *)
Definition of_decimal (n : N) (k : N) : float :=
  match n with
  | N0 => S754_zero false
  | Npos p => nearest false p (pow10 k)
  end.

End Float.

Import Float.

(** ** Regular expressions

    The three patterns of [load_data] use literal characters, the classes
    [\s], [[\d.]] and [.], the greedy star, the lazy star [*?] and one
    capturing group around a greedy [+].  [regex] is that fragment, and
    [match_here] is a backtracking matcher for it with the priorities of
    Python's [re]: a greedy repetition tries the longest run first, a lazy
    one the shortest, and the first alternative that lets the rest of the
    pattern match wins. *)

Module Re.

Inductive atom : Type :=
  | Char (c : ascii)   (* a literal character *)
  | Space              (* \s *)
  | NumChar            (* [\d.] *)
  | Dot.               (* . without DOTALL: anything but a line feed *)

Definition code (c : ascii) : N := N_of_ascii c.

(** [\s] on a [str] pattern is [str.isspace]: below code point 256 these
    are tab, line feed, vertical tab, form feed, carriage return, the four
    separators 28..31, space, next line (133) and no-break space (160). *)
Definition is_space (c : ascii) : bool :=
  let n := code c in
  ((9 <=? n) && (n <=? 13) || (28 <=? n) && (n <=? 32)
   || (n =? 133) || (n =? 160))%N.

(** [\d]: below code point 256 the decimal digits are [0] to [9]. *)
Definition is_digit (c : ascii) : bool :=
  let n := code c in ((48 <=? n) && (n <=? 57))%N.

Definition is_numchar (c : ascii) : bool :=
  is_digit c || Ascii.eqb c ".".

Definition atom_matches (a : atom) (c : ascii) : bool :=
  match a with
  | Char c' => Ascii.eqb c c'
  | Space => is_space c
  | NumChar => is_numchar c
  | Dot => negb (Ascii.eqb c "010")
  end.

Inductive node : Type :=
  | One (a : atom)         (* a *)
  | Star (a : atom)        (* a*   greedy *)
  | StarLazy (a : atom)    (* a*?  lazy *)
  | GroupPlus (a : atom).  (* (a+) capturing, greedy *)

Definition regex := list node.

(** [match_here r s]: match [r] at the start of [s]; on success the
    captured groups, in order of appearance. *)
Fixpoint match_here (r : regex) : string -> option (list string) :=
  match r with
  | [] => fun _ => Some []
  | One a :: r' => fun s =>
      match s with
      | String c s' => if atom_matches a c then match_here r' s' else None
      | EmptyString => None
      end
  | Star a :: r' =>
      fix star (s : string) : option (list string) :=
        match s with
        | String c s' =>
            if atom_matches a c then
              match star s' with
              | Some g => Some g
              | None => match_here r' s
              end
            else match_here r' s
        | EmptyString => match_here r' s
        end
  | StarLazy a :: r' =>
      fix lazy (s : string) : option (list string) :=
        match match_here r' s with
        | Some g => Some g
        | None =>
            match s with
            | String c s' => if atom_matches a c then lazy s' else None
            | EmptyString => None
            end
        end
  | GroupPlus a :: r' =>
      (* [more s]: after at least one character of the group, the rest of
         the group's text and the later groups *)
      let more :=
        fix more (s : string) : option (string * list string) :=
          let stop :=
            match match_here r' s with
            | Some g => Some (EmptyString, g)
            | None => None
            end in
          match s with
          | String c s' =>
              if atom_matches a c then
                match more s' with
                | Some (cap, g) => Some (String c cap, g)
                | None => stop
                end
              else stop
          | EmptyString => stop
          end in
      fun s =>
        match s with
        | String c s' =>
            if atom_matches a c then
              match more s' with
              | Some (cap, g) => Some (String c cap :: g)
              | None => None
              end
            else None
        | EmptyString => None
        end
  end.

(** [re.search]: the match at the leftmost position that has one. *)
Fixpoint search (r : regex) (s : string) : option (list string) :=
  match match_here r s with
  | Some g => Some g
  | None =>
      match s with
      | String _ s' => search r s'
      | EmptyString => None
      end
  end.

(** [m.group(1)] of a pattern with one group. *)
Definition group1 (m : list string) : string := hd EmptyString m.

Fixpoint lit (s : string) : regex :=
  match s with
  | String c s' => One (Char c) :: lit s'
  | EmptyString => []
  end.

End Re.

Import Re.

(** [r"Revenue\s*was\s*\$([\d.]+)"] *)
Definition rev_re : regex :=
  (lit "Revenue" ++ [Star Space] ++ lit "was" ++ [Star Space] ++ lit "$"
   ++ [GroupPlus NumChar])%list.

(** [r"Operating\s*income\s*grew.*?\$([\d.]+)"] *)
Definition op_re : regex :=
  (lit "Operating" ++ [Star Space] ++ lit "income" ++ [Star Space]
   ++ lit "grew" ++ [StarLazy Dot] ++ lit "$" ++ [GroupPlus NumChar])%list.

(** [r"Azure\s*surpassed\s*\$([\d.]+)"] *)
Definition az_re : regex :=
  (lit "Azure" ++ [Star Space] ++ lit "surpassed" ++ [Star Space] ++ lit "$"
   ++ [GroupPlus NumChar])%list.

(** ** Exceptions and the conversion [float(str)] *)

Inductive exn : Type :=
  | ValueError (msg : string)
  | ZeroDivisionError
  | DocumentError (msg : string).
      (* whatever the document reader raises, with its text *)

(** [str(e)] *)
Definition str (e : exn) : string :=
  match e with
  | ValueError msg => msg
  | ZeroDivisionError => "float division by zero"
  | DocumentError msg => msg
  end.

(** Computations that may raise. *)
Definition M (A : Type) : Type := (exn + A)%type.

Definition ret {A} (x : A) : M A := inr x.
Definition raise {A} (e : exn) : M A := inl e.
Definition bind {A B} (m : M A) (k : A -> M B) : M B :=
  match m with
  | inl e => inl e
  | inr x => k x
  end.

Notation "x <- m ;; k" := (bind m (fun x => k))
  (at level 61, m at next level, right associativity).

(** Reading a numeral made of digits and points: the digits as one
    integer, how many digits there are, and how many of them come after
    the point.  A second point or any other character ends the reading
    without a result. *)
Fixpoint scan (s : string) (n nd : N) (frac : option N)
  : option (N * N * N) :=
  match s with
  | EmptyString =>
      Some (n, nd, match frac with Some k => k | None => 0%N end)
  | String c s' =>
      if is_digit c then
        scan s' (10 * n + (code c - 48))%N (nd + 1)%N (option_map N.succ frac)
      else if Ascii.eqb c "." then
        match frac with
        | None => scan s' n nd (Some 0%N)
        | Some _ => None
        end
      else None
  end.

(** [float(s)] for the strings the capture group [([\d.]+)] can hold
    (see [search_rev_numeric] and its two siblings): digits with at most
    one point and at least one digit denote a decimal, which is rounded to
    the nearest float; too large a value gives [inf], too small a one
    [0.0]; anything else raises [ValueError]. *)
Definition float_of_str (s : string) : M float :=
  match scan s 0 0 None with
  | Some (n, nd, k) =>
      if (nd =? 0)%N then
        raise (ValueError ("could not convert string to float: '" ++ s ++ "'"))
      else ret (of_decimal n k)
  | None =>
      raise (ValueError ("could not convert string to float: '" ++ s ++ "'"))
  end.

(** [a / b] on floats. *)
Definition truediv (a b : float) : M float :=
  if is_zero b then raise ZeroDivisionError else ret (div a b).

(** ** The metrics record and [load_data] *)

Record MetricsRecord : Type := {
  Revenue : float;
  Income : float;
  Azure : float;
  Margin : float;
  AzureMix : float;
  Other : float
}.

(** [float(m.group(1)) if m else default] *)
Definition captured (m : option (list string)) (default : float) : M float :=
  match m with
  | Some g => float_of_str (group1 g)
  | None => ret default
  end.

Definition f281_7 : float := of_decimal 2817 1.
Definition f128_5 : float := of_decimal 1285 1.
Definition f75_0 : float := of_decimal 750 1.
Definition f100 : float := of_decimal 100 0.

(** Lines 55 to 70 of [load_data]: from the text of the document to the
    record. *)
Definition extract (text : string) : M MetricsRecord :=
  let rev_match := search rev_re text in
  let op_match := search op_re text in
  let az_match := search az_re text in
  rev <- captured rev_match f281_7 ;;
  op <- captured op_match f128_5 ;;
  az <- captured az_match f75_0 ;;
  q <- truediv op rev ;;
  let margin := mul q f100 in
  q' <- truediv az rev ;;
  let az_contribution := mul q' f100 in
  ret {| Revenue := rev; Income := op; Azure := az;
         Margin := round2 margin; AzureMix := round2 az_contribution;
         Other := sub rev az |}.

(** What [load_data] finds outside: whether the report exists, and what
    opening it and extracting the text of its pages does. *)
Inductive page : Type :=
  | PageText (t : string)
  | PageRaises (msg : string).

Inductive document : Type :=
  | OpenRaises (msg : string)
  | Opened (pages : list page).

Record World : Type := {
  path_exists : bool;
  doc : document
}.

(** [[p.extract_text() for p in pages]] *)
Fixpoint extract_texts (pages : list page) : M (list string) :=
  match pages with
  | [] => ret []
  | PageText t :: ps => ts <- extract_texts ps ;; ret (t :: ts)
  | PageRaises msg :: _ => raise (DocumentError msg)
  end.

(** [sep.join(ts)] *)
Fixpoint join (sep : string) (ts : list string) : string :=
  match ts with
  | [] => ""
  | [t] => t
  | t :: ts' => t ++ sep ++ join sep ts'
  end.

(** Lines 52 and 53: the text of the first two pages. *)
Definition read_text (d : document) : M string :=
  match d with
  | OpenRaises msg => raise (DocumentError msg)
  | Opened pages =>
      ts <- extract_texts (firstn 2 pages) ;; ret (join " " ts)
  end.

(** Lines 42 to 72, the function that line 41 hands to [st.cache_data]:
    what a call of [load_data()] computes when the cache holds no result.
    It returns the pair [(record, None)] or [(None, message)]. *)
Definition load_data (w : World) : option MetricsRecord * option string :=
  if negb (path_exists w) then (None, Some "Data Source Pending")
  else
    match text <- read_text (doc w) ;; extract text with
    | inr data => (Some data, None)
    | inl e => (None, Some (str e))
    end.

(** [@st.cache_data] (line 41).  The function takes no argument, so the
    cache has one entry: empty until the first call returns, then holding
    what that call returned.  A call that finds the entry returns it and
    does not run the function; a call that finds none runs the function on
    the world of that moment and stores what it returns.  (The function
    catches its exceptions, so every call returns and is stored.) *)
Definition cache_data {A : Type} (f : World -> A)
  (cache : option A) (w : World) : A * option A :=
  match cache with
  | Some r => (r, cache)
  | None => let r := f w in (r, Some r)
  end.

(** [load_data()] as the script calls it on line 77: the result and the
    cache after the call. *)
Definition load_data_cached :
  option (option MetricsRecord * option string) -> World ->
  (option MetricsRecord * option string) *
  option (option MetricsRecord * option string) :=
  cache_data load_data.

(** The results of the successive calls of one process, [ws] giving the
    world at the time of each call, from a cache [cache] before the
    first. *)
Fixpoint invocations
  (cache : option (option MetricsRecord * option string))
  (ws : list World) : list (option MetricsRecord * option string) :=
  match ws with
  | [] => []
  | w :: ws' =>
      let '(r, cache') := load_data_cached cache w in
      r :: invocations cache' ws'
  end.

(** ** Auxiliary notions for the proofs *)

Fixpoint group_atoms (r : regex) : list atom :=
  match r with
  | [] => []
  | GroupPlus a :: r' => a :: group_atoms r'
  | _ :: r' => group_atoms r'
  end.

Fixpoint all_match (a : atom) (s : string) : bool :=
  match s with
  | EmptyString => true
  | String c s' => atom_matches a c && all_match a s'
  end.

(** A text a group [(a+)] may capture: one character or more, all of
    class [a]. *)
Definition capture_of (a : atom) (c : string) : Prop :=
  c <> EmptyString /\ all_match a c = true.

(** How many points and how many digits a string has. *)
Fixpoint points (s : string) : nat :=
  match s with
  | EmptyString => 0
  | String c s' => (if Ascii.eqb c "." then 1 else 0) + points s'
  end.

Fixpoint digits (s : string) : nat :=
  match s with
  | EmptyString => 0
  | String c s' => (if is_digit c then 1 else 0) + digits s'
  end.

(** The record [extract] builds from the three base figures. *)
Definition record_of (rev op az : float) : MetricsRecord :=
  {| Revenue := rev; Income := op; Azure := az;
     Margin := round2 (mul (div op rev) f100);
     AzureMix := round2 (mul (div az rev) f100);
     Other := sub rev az |}.

(** ** What a pattern means

    [denotes r m g]: the text [m], read from its first to its last
    character, has the shape of the pattern [r], the groups of [r] holding
    the texts [g].  This says which texts match, not which match a
    backtracking search picks. *)
Fixpoint denotes (r : regex) (m : string) (g : list string) : Prop :=
  match r with
  | [] => m = EmptyString /\ g = []
  | One a :: r' =>
      exists c t, m = String c t /\ atom_matches a c = true /\ denotes r' t g
  | Star a :: r' | StarLazy a :: r' =>
      exists u t, m = u ++ t /\ all_match a u = true /\ denotes r' t g
  | GroupPlus a :: r' =>
      exists u t g',
        m = u ++ t /\ capture_of a u /\ g = u :: g' /\ denotes r' t g'
  end.

(** Whether [s] begins with a character of class [a]. *)
Definition starts_with (a : atom) (s : string) : bool :=
  match s with
  | String c _ => atom_matches a c
  | EmptyString => false
  end.

(** Whether [s] holds no dollar sign followed by a digit or a point. *)
Fixpoint no_figure (s : string) : bool :=
  match s with
  | EmptyString => true
  | String c t =>
      negb (Ascii.eqb c "$" && starts_with NumChar t) && no_figure t
  end.

(** Whether the character [c] occurs in [s]. *)
Fixpoint occurs (c : ascii) (s : string) : bool :=
  match s with
  | EmptyString => false
  | String c' t => Ascii.eqb c' c || occurs c t
  end.

(** The pattern [w1\s*w2\s*\$([\d.]+)], of which the revenue and the
    Azure pattern are instances. *)
Definition two_word_re (w1 w2 : string) : regex :=
  (lit w1 ++ [Star Space] ++ lit w2 ++ [Star Space] ++ lit "$"
   ++ [GroupPlus NumChar])%list.

(** [m] is the two words, white space after each, a dollar sign and the
    figure [c], a run of digits and points. *)
Definition two_word_figure (w1 w2 m c : string) : Prop :=
  exists ws1 ws2,
    m = w1 ++ ws1 ++ w2 ++ ws2 ++ "$" ++ c /\
    all_match Space ws1 = true /\ all_match Space ws2 = true /\
    capture_of NumChar c.

(** [m] is "Operating income grew", white space after the first two
    words, then text [mid] without a line feed, a dollar sign and the
    figure [c]. *)
Definition growth_figure (m mid c : string) : Prop :=
  exists ws1 ws2,
    m = "Operating" ++ ws1 ++ "income" ++ ws2 ++ "grew" ++ mid ++ "$" ++ c /\
    all_match Space ws1 = true /\ all_match Space ws2 = true /\
    all_match Dot mid = true /\ capture_of NumChar c.

(** [text] holds the two words and the figure [c], and [c] is the whole
    run of digits and points after the dollar sign. *)
Definition greedy_figure (w1 w2 text c : string) : Prop :=
  exists pre ws1 ws2 rest,
    text = pre ++ w1 ++ ws1 ++ w2 ++ ws2 ++ "$" ++ c ++ rest /\
    all_match Space ws1 = true /\ all_match Space ws2 = true /\
    capture_of NumChar c /\ starts_with NumChar rest = false.

(** [text] holds "Operating income grew", and [c] is the whole run of
    digits and points after the first dollar sign, on the same line, that
    such a run follows. *)
Definition first_growth_figure (text c : string) : Prop :=
  exists pre ws1 ws2 mid rest,
    text = pre ++ "Operating" ++ ws1 ++ "income" ++ ws2 ++ "grew" ++ mid
           ++ "$" ++ c ++ rest /\
    all_match Space ws1 = true /\ all_match Space ws2 = true /\
    all_match Dot mid = true /\ no_figure (mid ++ "$") = true /\
    capture_of NumChar c /\ starts_with NumChar rest = false.

(** A numeral with at most one point and at least one digit. *)
Definition valid_numeral (c : string) : Prop :=
  (points c <= 1 /\ 1 <= digits c)%nat.

(** The text of the [ValueError] that [float(c)] raises. *)
Definition float_error (c : string) : string :=
  "could not convert string to float: '" ++ c ++ "'".

(** [x == y] on floats: false as soon as one of them is NaN. *)
Definition float_eq (x y : float) : bool := SFeqb x y.

Definition is_nan (x : float) : bool :=
  match x with
  | S754_nan => true
  | _ => false
  end.

Definition inf : float := S754_infinity false.

(** ** The texts of the scenarios *)

Definition scenario6 : string :=
  "Revenue was $281.7 ... Operating income grew ... $128.5 ... Azure surpassed $75.0".

(** The record of scenarios 6 and 7, each number being the float its
    decimal literal denotes. *)
Definition scenario_record : MetricsRecord :=
  {| Revenue := of_decimal 2817 1; Income := of_decimal 1285 1;
     Azure := of_decimal 750 1; Margin := of_decimal 4562 2;
     AzureMix := of_decimal 2662 2; Other := of_decimal 2067 1 |}.

Definition zero_revenue_text : string :=
  "Revenue was $0 Operating income grew to $1 Azure surpassed $1".

Definition world_of_text (t : string) : World :=
  {| path_exists := true; doc := Opened [PageText t] |}.

Definition missing_file : World :=
  {| path_exists := false; doc := OpenRaises "No such file" |}.

(** Numerals that leave the range of the floats: 1 followed by 400
    zeros, which [float] reads as [inf], and 0.00...01 with 400 zeros after
    the point, which it reads as [0.0]. *)
Fixpoint zeros (n : nat) : string :=
  match n with
  | O => EmptyString
  | S k => String "0" (zeros k)
  end.

Definition huge : string := "1" ++ zeros 400.
Definition tiny : string := "0." ++ zeros 400 ++ "1".

Definition overflow_text : string :=
  "Revenue was $" ++ huge ++ " Operating income grew to $" ++ huge
  ++ " Azure surpassed $" ++ huge.

Definition overflow_record : MetricsRecord :=
  {| Revenue := inf; Income := inf; Azure := inf;
     Margin := S754_nan; AzureMix := S754_nan; Other := S754_nan |}.

Definition underflow_text : string := "Revenue was $" ++ tiny.

Definition zero_revenue_bad_azure : string :=
  "Revenue was $0 Azure surpassed $7..5".

Definition pending : option MetricsRecord * option string :=
  (None, Some "Data Source Pending").

(** ** Signs of rounded values *)

Lemma shr_1_nonneg mrs : 0 <= shr_m mrs -> 0 <= shr_m (shr_1 mrs).
Proof.
  destruct mrs as [m r t]; simpl.
  destruct m as [|[p|p|]|p]; simpl; lia.
Qed.

Lemma iter_shr_1_nonneg p :
  forall mrs, 0 <= shr_m mrs -> 0 <= shr_m (iter_pos shr_1 p mrs).
Proof.
  induction p as [p IH|p IH|]; intros mrs H; simpl.
  - apply IH, IH, shr_1_nonneg, H.
  - apply IH, IH, H.
  - apply shr_1_nonneg, H.
Qed.

Lemma shr_record_of_loc_m m l : shr_m (shr_record_of_loc m l) = m.
Proof. destruct l as [|[]]; reflexivity. Qed.

Lemma shr_fexp_nonneg m e l :
  0 <= m -> 0 <= shr_m (fst (shr_fexp prec emax m e l)).
Proof.
  intros H. unfold shr_fexp, shr.
  destruct (fexp prec emax (Zdigits2 m + e) - e) as [|k|k]; simpl;
    try (rewrite shr_record_of_loc_m; exact H).
  apply iter_shr_1_nonneg. rewrite shr_record_of_loc_m. exact H.
Qed.

Lemma round_nearest_even_nonneg m l :
  0 <= m -> 0 <= round_nearest_even m l.
Proof.
  intros H. unfold round_nearest_even.
  destruct l as [|[]]; try lia. destruct (Z.even m); lia.
Qed.

Lemma binary_round_aux_nonneg m e l :
  0 <= m -> nonneg (binary_round_aux prec emax false m e l) = true.
Proof.
  intros H. unfold binary_round_aux.
  pose proof (shr_fexp_nonneg m e l H) as H1.
  destruct (shr_fexp prec emax m e l) as [mrs' e']; simpl in H1.
  pose proof (shr_fexp_nonneg _ e' loc_Exact
                (round_nearest_even_nonneg _ (loc_of_shr_record mrs') H1)) as H2.
  destruct (shr_fexp prec emax _ e' loc_Exact) as [mrs'' e'']; simpl in H2.
  destruct (shr_m mrs'') as [|k|k]; try lia; try reflexivity.
  destruct (e'' <=? emax - prec); reflexivity.
Qed.

Lemma nearest_nonneg p q : nonneg (nearest false p q) = true.
Proof.
  unfold nearest, SFdiv_core_binary.
  set (e' := Z.min _ _). set (m' := match 0 - 0 - e' with Z0 => _ | _ => _ end).
  assert (Hm : 0 <= m').
  { subst m'. destruct (0 - 0 - e') as [|k|k]; try lia.
    rewrite Z.shiftl_mul_pow2 by lia. apply Z.mul_nonneg_nonneg; [lia|].
    apply Z.pow_nonneg; lia. }
  pose proof (Z.div_pos m' (Zpos q) Hm ltac:(lia)) as Hq.
  unfold Z.div in Hq.
  destruct (Z.div_eucl m' (Zpos q)) as [d r]; simpl in Hq.
  apply binary_round_aux_nonneg, Hq.
Qed.

Lemma of_decimal_nonneg n k : nonneg (of_decimal n k) = true.
Proof.
  destruct n as [|p]; simpl; [reflexivity | apply nearest_nonneg].
Qed.

Lemma float_of_str_nonneg s v : float_of_str s = inr v -> nonneg v = true.
Proof.
  unfold float_of_str.
  destruct (scan s 0 0 None) as [[[n nd] k]|]; [|discriminate].
  destruct (nd =? 0)%N; [discriminate|].
  intros H; injection H as <-. apply of_decimal_nonneg.
Qed.

Lemma captured_nonneg m d v :
  nonneg d = true -> captured m d = inr v -> nonneg v = true.
Proof.
  intros Hd. destruct m as [g|]; simpl.
  - apply float_of_str_nonneg.
  - intros H; injection H as <-. exact Hd.
Qed.

(** ** What a capture group can hold *)

Lemma match_here_groups r :
  forall s g, match_here r s = Some g -> Forall2 capture_of (group_atoms r) g.
Proof.
  induction r as [|n r' IH]; simpl.
  - intros s g H; injection H as <-. constructor.
  - destruct n as [a|a|a|a].
    + intros [|c s] g H; [discriminate|].
      destruct (atom_matches a c); [eauto | discriminate].
    + induction s as [|c s IHs]; intros g H; [eauto|].
      destruct (atom_matches a c); [|eauto].
      match type of H with match ?X with _ => _ end = _ =>
        destruct X as [g0|] eqn:E end; [|eauto].
      injection H as <-. apply IHs. reflexivity.
    + induction s as [|c s IHs]; intros g H.
      * destruct (match_here r' ""%string) eqn:E; [|discriminate].
        injection H as <-. eauto.
      * destruct (match_here r' (String c s)) eqn:E.
        { injection H as <-. eauto. }
        destruct (atom_matches a c); [eauto | discriminate].
    + set (more := fix more (s : string) : option (string * list string) := _).
      assert (Hmore : forall s cap g, more s = Some (cap, g) ->
                all_match a cap = true /\ Forall2 capture_of (group_atoms r') g).
      { induction s as [|c s IHs]; intros cap g H; simpl in H.
        - destruct (match_here r' ""%string) eqn:E; [|discriminate].
          injection H as <- <-. split; [reflexivity | eauto].
        - assert (Hstop : match match_here r' (String c s) with
                          | Some g => Some (EmptyString, g)
                          | None => None
                          end = Some (cap, g) ->
                          all_match a cap = true /\
                          Forall2 capture_of (group_atoms r') g).
          { destruct (match_here r' (String c s)) eqn:E; [|discriminate].
            intros H'; injection H' as <- <-. split; [reflexivity | eauto]. }
          destruct (atom_matches a c) eqn:Ea; [|auto].
          destruct (more s) as [[cap' g']|] eqn:Em; [|auto].
          injection H as <- <-.
          destruct (IHs cap' g' eq_refl) as [H1 H2].
          split; [simpl; rewrite Ea, H1; reflexivity | exact H2]. }
      intros [|c s] g H; [discriminate|].
      destruct (atom_matches a c) eqn:Ea; [|discriminate].
      destruct (more s) as [[cap g']|] eqn:Em; [|discriminate].
      injection H as <-.
      destruct (Hmore s cap g' Em) as [H1 H2].
      constructor; [|exact H2].
      split; [discriminate | simpl; rewrite Ea, H1; reflexivity].
Qed.

Lemma search_groups r :
  forall s g, search r s = Some g -> Forall2 capture_of (group_atoms r) g.
Proof.
  induction s as [|c s IHs]; intros g H; simpl in H.
  - destruct (match_here r ""%string) eqn:E; [|discriminate].
    injection H as <-. eapply match_here_groups, E.
  - destruct (match_here r (String c s)) eqn:E.
    + injection H as <-. eapply match_here_groups, E.
    + apply IHs, H.
Qed.

(** A match of a pattern whose one group is [([\d.]+)] captures a
    non-empty run of digits and points. *)
Lemma one_numeric_group r s g :
  group_atoms r = [NumChar] -> search r s = Some g ->
  g = [group1 g] /\ capture_of NumChar (group1 g).
Proof.
  intros Hr H. apply search_groups in H. rewrite Hr in H.
  inversion H as [|a c l l' Hc Hl]; subst. inversion Hl; subst.
  split; [reflexivity | exact Hc].
Qed.

Lemma search_rev_numeric s g :
  search rev_re s = Some g -> capture_of NumChar (group1 g).
Proof. apply one_numeric_group. reflexivity. Qed.

Lemma search_op_numeric s g :
  search op_re s = Some g -> capture_of NumChar (group1 g).
Proof. apply one_numeric_group. reflexivity. Qed.

Lemma search_az_numeric s g :
  search az_re s = Some g -> capture_of NumChar (group1 g).
Proof. apply one_numeric_group. reflexivity. Qed.

(** ** Which captures [float] accepts *)

Lemma digit_not_point c : is_digit c = true -> Ascii.eqb c "." = false.
Proof.
  destruct c as [[] [] [] [] [] [] [] []]; vm_compute; congruence.
Qed.

Lemma scan_numeric s :
  all_match NumChar s = true ->
  forall n nd frac,
    if (points s + match frac with Some _ => 1 | None => 0 end <=? 1)%nat
    then exists n' k,
           scan s n nd frac = Some (n', (nd + N.of_nat (digits s))%N, k)
    else scan s n nd frac = None.
Proof.
  induction s as [|c s IH]; intros Hall n nd frac.
  - destruct frac; simpl; rewrite N.add_0_r; eauto.
  - cbn [all_match atom_matches] in Hall.
    apply andb_prop in Hall. destruct Hall as [Hc Hall].
    specialize (IH Hall). unfold is_numchar in Hc.
    cbn [scan points digits].
    destruct (is_digit c) eqn:Ed.
    + rewrite (digit_not_point c Ed), Nat.add_0_l.
      replace (nd + N.of_nat (1 + digits s))%N
        with (nd + 1 + N.of_nat (digits s))%N by lia.
      specialize (IH (10 * n + (code c - 48))%N (nd + 1)%N
                     (option_map N.succ frac)).
      destruct frac; exact IH.
    + cbn [orb] in Hc. rewrite Hc, Nat.add_0_l. destruct frac as [k|].
      * replace (1 + points s + 1 <=? 1)%nat with false
          by (symmetry; apply Nat.leb_gt; lia).
        reflexivity.
      * replace (1 + points s + 0)%nat with (points s + 1)%nat by lia.
        exact (IH n nd (Some 0%N)).
Qed.

(** Of a run of digits and points, [float] accepts exactly those with at
    most one point and at least one digit. *)
Lemma float_of_str_valid s :
  all_match NumChar s = true ->
  ((exists v, float_of_str s = inr v) <->
   (points s <= 1 /\ 1 <= digits s)%nat).
Proof.
  intros Hall. pose proof (scan_numeric s Hall 0%N 0%N None) as H.
  unfold float_of_str. rewrite Nat.add_0_r in H.
  destruct (points s <=? 1)%nat eqn:Ep.
  - destruct H as (n' & k & ->). simpl.
    apply Nat.leb_le in Ep.
    destruct (N.of_nat (digits s) =? 0)%N eqn:Ez.
    + apply N.eqb_eq in Ez. split; [intros [v Hv]; discriminate | lia].
    + apply N.eqb_neq in Ez. split; [lia | eauto].
  - rewrite H. apply Nat.leb_gt in Ep.
    split; [intros [v Hv]; discriminate | lia].
Qed.

(** ** How [extract] succeeds *)

Lemma extract_success text rev op az :
  captured (search rev_re text) f281_7 = inr rev ->
  captured (search op_re text) f128_5 = inr op ->
  captured (search az_re text) f75_0 = inr az ->
  is_zero rev = false ->
  extract text = inr (record_of rev op az).
Proof.
  intros H1 H2 H3 Hz. unfold extract. rewrite H1, H2, H3. simpl.
  unfold truediv. rewrite Hz. reflexivity.
Qed.

Lemma extract_inversion text r :
  extract text = inr r ->
  exists rev op az,
    captured (search rev_re text) f281_7 = inr rev /\
    captured (search op_re text) f128_5 = inr op /\
    captured (search az_re text) f75_0 = inr az /\
    is_zero rev = false /\
    r = record_of rev op az.
Proof.
  unfold extract.
  destruct (captured (search rev_re text) f281_7) as [e|rev]; [discriminate|].
  destruct (captured (search op_re text) f128_5) as [e|op]; [discriminate|].
  destruct (captured (search az_re text) f75_0) as [e|az]; [discriminate|].
  simpl. unfold truediv.
  destruct (is_zero rev) eqn:Hz; [discriminate|]. simpl.
  intros H; injection H as <-.
  exists rev, op, az. repeat split; reflexivity || exact Hz.
Qed.

Lemma extract_zero_revenue text rev op az :
  captured (search rev_re text) f281_7 = inr rev ->
  captured (search op_re text) f128_5 = inr op ->
  captured (search az_re text) f75_0 = inr az ->
  is_zero rev = true ->
  extract text = inl ZeroDivisionError.
Proof.
  intros H1 H2 H3 Hz. unfold extract. rewrite H1, H2, H3. simpl.
  unfold truediv. rewrite Hz. reflexivity.
Qed.

Lemma load_data_of_text w text :
  path_exists w = true -> read_text (doc w) = inr text ->
  load_data w =
    match extract text with
    | inr data => (Some data, None)
    | inl e => (None, Some (str e))
    end.
Proof.
  intros He Ht. unfold load_data. rewrite He, Ht. reflexivity.
Qed.

(** ** The claims *)

(** C1, as stated, fails: this text has the three phrases, each with a
    valid decimal, and [extract] returns no record, because the revenue
    it captures is zero and the division raises. *)
Lemma captured_values_zero_revenue :
  search rev_re zero_revenue_text = Some ["0"%string] /\
  search op_re zero_revenue_text = Some ["1"%string] /\
  search az_re zero_revenue_text = Some ["1"%string] /\
  float_of_str "0" = inr (S754_zero false) /\
  float_of_str "1" = inr (of_decimal 1 0) /\
  extract zero_revenue_text = inl ZeroDivisionError /\
  ~ (exists r, extract zero_revenue_text = inr r).
Proof.
  assert (E : extract zero_revenue_text = inl ZeroDivisionError)
    by (vm_compute; reflexivity).
  repeat split; try (vm_compute; reflexivity).
  intros [r H]. rewrite E in H. discriminate.
Qed.

(** C1 (amended): when the three patterns are found in the text, the three
    captures are valid decimals and the captured revenue is not zero,
    [extract] returns a record whose Revenue, Income and Azure are the
    floats of the captured numerals, with no rounding to two decimals. *)
Theorem extract_captured_values text g1 g2 g3 v1 v2 v3 :
  search rev_re text = Some g1 -> float_of_str (group1 g1) = inr v1 ->
  search op_re text = Some g2 -> float_of_str (group1 g2) = inr v2 ->
  search az_re text = Some g3 -> float_of_str (group1 g3) = inr v3 ->
  is_zero v1 = false ->
  exists r, extract text = inr r /\
            Revenue r = v1 /\ Income r = v2 /\ Azure r = v3.
Proof.
  intros S1 F1 S2 F2 S3 F3 Hz.
  exists (record_of v1 v2 v3). split; [|repeat split].
  apply extract_success; try assumption.
  - rewrite S1. exact F1.
  - rewrite S2. exact F2.
  - rewrite S3. exact F3.
Qed.

Lemma extract_captured_values_witness :
  exists r, extract scenario6 = inr r /\
            Revenue r = of_decimal 2817 1 /\ Income r = of_decimal 1285 1 /\
            Azure r = of_decimal 750 1.
Proof.
  apply (extract_captured_values scenario6
           ["281.7"%string] ["128.5"%string] ["75.0"%string]);
    vm_compute; reflexivity.
Defined.

(** C2: a text in which none of the three patterns is found gives the
    defaults 281.7, 128.5 and 75.0, and with them the whole record
    {281.7, 128.5, 75.0, 45.62, 26.62, 206.7}; the empty text is such a
    text. *)
Theorem extract_defaults text :
  search rev_re text = None -> search op_re text = None ->
  search az_re text = None ->
  extract text = inr scenario_record /\
  extract "" = inr scenario_record.
Proof.
  intros H1 H2 H3. split; [|vm_compute; reflexivity].
  unfold extract. rewrite H1, H2, H3. vm_compute. reflexivity.
Qed.

Lemma extract_defaults_witness :
  extract "" = inr scenario_record /\ extract "" = inr scenario_record.
Proof. apply (extract_defaults ""); vm_compute; reflexivity. Defined.

(** With Azure above Revenue the difference is negative: 1 - 2 = -1. *)
Example other_negative :
  exists r, extract "Revenue was $1 Azure surpassed $2" = inr r /\
            Other r = S754_finite true 4503599627370496 (-52) /\
            nonneg (Other r) = false.
Proof. eexists. vm_compute. repeat split. Qed.

(** C5, as stated, fails: the text of this document is obtained, and
    [load_data] returns an error all the same, that of [float(".")]. *)
Lemma text_obtained_yet_error :
  path_exists (world_of_text "Revenue was $.") = true /\
  read_text (doc (world_of_text "Revenue was $.")) = inr "Revenue was $."%string /\
  load_data (world_of_text "Revenue was $.") =
    (None, Some "could not convert string to float: '.'"%string) /\
  ~ (exists r, load_data (world_of_text "Revenue was $.") = (Some r, None)).
Proof.
  assert (E : load_data (world_of_text "Revenue was $.") =
              (None, Some "could not convert string to float: '.'"%string))
    by (vm_compute; reflexivity).
  repeat split; try (vm_compute; reflexivity).
  intros [r H]. rewrite E in H. discriminate.
Qed.

(** C5 (amended): [load_data] returns either a complete record and no
    message, or no record and one message, never both and never neither;
    and when the text of the document is obtained, it returns a record
    exactly when each found capture is a valid decimal and the revenue is
    not zero: a capture that [float] rejects and a zero revenue are
    failure paths besides the acquisition of the text. *)
Theorem load_data_all_or_nothing w :
  ((exists r, load_data w = (Some r, None)) \/
   (exists msg, load_data w = (None, Some msg))) /\
  (forall text,
     path_exists w = true -> read_text (doc w) = inr text ->
     ((exists r, load_data w = (Some r, None)) <->
      (exists rev op az,
         captured (search rev_re text) f281_7 = inr rev /\
         captured (search op_re text) f128_5 = inr op /\
         captured (search az_re text) f75_0 = inr az /\
         is_zero rev = false))).
Proof.
  split.
  - unfold load_data. destruct (negb (path_exists w)); [right; eauto|].
    destruct (bind _ _) as [e|r]; [right | left]; eauto.
  - intros text He Ht. rewrite (load_data_of_text w text He Ht). split.
    + intros [r H]. destruct (extract text) as [e|r'] eqn:E; [discriminate|].
      apply extract_inversion in E.
      destruct E as (rev & op & az & H1 & H2 & H3 & Hz & _).
      exists rev, op, az. auto.
    + intros (rev & op & az & H1 & H2 & H3 & Hz).
      rewrite (extract_success text rev op az H1 H2 H3 Hz). eauto.
Qed.

Lemma load_data_all_or_nothing_witness :
  (exists r, load_data (world_of_text scenario6) = (Some r, None)) <->
  (exists rev op az,
     captured (search rev_re scenario6) f281_7 = inr rev /\
     captured (search op_re scenario6) f128_5 = inr op /\
     captured (search az_re scenario6) f75_0 = inr az /\
     is_zero rev = false).
Proof.
  apply (proj2 (load_data_all_or_nothing (world_of_text scenario6)) scenario6);
    vm_compute; reflexivity.
Defined.

(** C7: on the text of scenario 6, [extract] returns the record
    {281.7, 128.5, 75.0, 45.62, 26.62, 206.7}. *)
Theorem extract_scenario6 : extract scenario6 = inr scenario_record.
Proof. vm_compute. reflexivity. Qed.

(** C9: in every record [extract] returns, Revenue, Income and Azure are
    floats [x] with [0.0 <= x]. *)
Theorem base_fields_nonneg text r :
  extract text = inr r ->
  nonneg (Revenue r) = true /\ nonneg (Income r) = true /\
  nonneg (Azure r) = true.
Proof.
  intros H. apply extract_inversion in H.
  destruct H as (rev & op & az & H1 & H2 & H3 & _ & ->). simpl.
  repeat split; eapply captured_nonneg; eauto; reflexivity.
Qed.

Lemma base_fields_nonneg_witness :
  nonneg (Revenue scenario_record) = true /\
  nonneg (Income scenario_record) = true /\
  nonneg (Azure scenario_record) = true.
Proof.
  apply (base_fields_nonneg scenario6 scenario_record).
  vm_compute. reflexivity.
Defined.

Example zero_revenue_message :
  load_data (world_of_text "Revenue was $0") =
    (None, Some "float division by zero"%string).
Proof. vm_compute. reflexivity. Qed.

(** ** The matcher against the meaning of a pattern *)

Lemma append_assoc (a b c : string) : ((a ++ b) ++ c = a ++ (b ++ c))%string.
Proof. induction a as [|x a IH]; simpl; [reflexivity | rewrite IH; reflexivity]. Qed.

Lemma append_empty_r (a : string) : (a ++ "" = a)%string.
Proof. induction a as [|x a IH]; simpl; [reflexivity | rewrite IH; reflexivity]. Qed.

(** A match of [r1 ++ r2] splits the text into a part of the shape of
    [r1] and a rest that [r2] matches. *)
Lemma match_here_app_sound (r1 r2 : regex) :
  forall s g,
    match_here (r1 ++ r2)%list s = Some g ->
    exists m rest g1 g2,
      s = (m ++ rest)%string /\ denotes r1 m g1 /\
      match_here r2 rest = Some g2 /\ g = (g1 ++ g2)%list.
Proof.
  induction r1 as [|n r' IH]; cbn [app].
  - intros s g H. exists EmptyString, s, [], g. repeat split; assumption.
  - destruct n as [a|a|a|a]; cbn [match_here denotes].
    + intros [|c s] g H; [discriminate|].
      destruct (atom_matches a c) eqn:Ea; [|discriminate].
      destruct (IH s g H) as (m & rest & g1 & g2 & -> & Hd & Hm & ->).
      exists (String c m), rest, g1, g2. repeat split; eauto.
    + assert (Hbase : forall s g, match_here (r' ++ r2)%list s = Some g ->
                exists m rest g1 g2,
                  s = (m ++ rest)%string /\
                  (exists u t, m = (u ++ t)%string /\ all_match a u = true /\
                               denotes r' t g1) /\
                  match_here r2 rest = Some g2 /\ g = (g1 ++ g2)%list).
      { intros s g H.
        destruct (IH s g H) as (m & rest & g1 & g2 & -> & Hd & Hm & ->).
        exists m, rest, g1, g2. repeat split; auto.
        exists EmptyString, m. auto. }
      induction s as [|c s IHs]; intros g H; [auto|].
      destruct (atom_matches a c) eqn:Ea; [|auto].
      match type of H with match ?X with _ => _ end = _ =>
        destruct X as [g0|] eqn:E end; [|auto].
      injection H as <-.
      destruct (IHs g0 eq_refl)
        as (m & rest & g1 & g2 & -> & (u & t & -> & Hu & Hd) & Hm & ->).
      exists (String c (u ++ t)), rest, g1, g2. repeat split; auto.
      exists (String c u), t. repeat split; auto.
      simpl. rewrite Ea, Hu. reflexivity.
    + induction s as [|c s IHs]; intros g H.
      * destruct (match_here (r' ++ r2)%list ""%string) eqn:E; [|discriminate].
        injection H as <-.
        destruct (IH _ _ E) as (m & rest & g1 & g2 & Hs & Hd & Hm & ->).
        exists m, rest, g1, g2. repeat split; auto.
        exists EmptyString, m. auto.
      * destruct (match_here (r' ++ r2)%list (String c s)) eqn:E.
        { injection H as <-.
          destruct (IH _ _ E) as (m & rest & g1 & g2 & Hs & Hd & Hm & ->).
          exists m, rest, g1, g2. repeat split; auto.
          exists EmptyString, m. auto. }
        destruct (atom_matches a c) eqn:Ea; [|discriminate].
        destruct (IHs g H)
          as (m & rest & g1 & g2 & -> & (u & t & -> & Hu & Hd) & Hm & ->).
        exists (String c (u ++ t)), rest, g1, g2. repeat split; auto.
        exists (String c u), t. repeat split; auto.
        simpl. rewrite Ea, Hu. reflexivity.
    + set (more := fix more (s : string) : option (string * list string) := _).
      assert (Hmore : forall s cap g, more s = Some (cap, g) ->
                exists t rest g1 g2,
                  s = ((cap ++ t) ++ rest)%string /\ all_match a cap = true /\
                  denotes r' t g1 /\ match_here r2 rest = Some g2 /\
                  g = (g1 ++ g2)%list).
      { assert (Hstop : forall s cap g,
                  match match_here (r' ++ r2)%list s with
                  | Some g => Some (EmptyString, g)
                  | None => None
                  end = Some (cap, g) ->
                  exists t rest g1 g2,
                    s = ((cap ++ t) ++ rest)%string /\ all_match a cap = true /\
                    denotes r' t g1 /\ match_here r2 rest = Some g2 /\
                    g = (g1 ++ g2)%list).
        { intros s cap g H.
          destruct (match_here (r' ++ r2)%list s) eqn:E; [|discriminate].
          injection H as <- <-.
          destruct (IH _ _ E) as (m & rest & g1 & g2 & -> & Hd & Hm & ->).
          exists m, rest, g1, g2. repeat split; auto. }
        induction s as [|c s IHs]; intros cap g H; simpl in H; [auto|].
        destruct (atom_matches a c) eqn:Ea; [|auto].
        destruct (more s) as [[cap' g']|] eqn:Em; [|auto].
        injection H as <- <-.
        destruct (IHs cap' g' eq_refl)
          as (t & rest & g1 & g2 & -> & Hc & Hd & Hm & ->).
        exists t, rest, g1, g2. repeat split; auto.
        simpl. rewrite Ea, Hc. reflexivity. }
      intros [|c s] g H; [discriminate|].
      destruct (atom_matches a c) eqn:Ea; [|discriminate].
      destruct (more s) as [[cap g']|] eqn:Em; [|discriminate].
      injection H as <-.
      destruct (Hmore s cap g' Em)
        as (t & rest & g1 & g2 & -> & Hc & Hd & Hm & ->).
      exists (String c (cap ++ t)), rest, (String c cap :: g1), g2.
      repeat split; auto.
      exists (String c cap), t, g1. repeat split; auto.
      * discriminate.
      * simpl. rewrite Ea, Hc. reflexivity.
Qed.

Lemma match_here_sound r s g :
  match_here r s = Some g ->
  exists m rest, s = (m ++ rest)%string /\ denotes r m g.
Proof.
  intros H. rewrite <- (app_nil_r r) in H.
  destruct (match_here_app_sound r [] s g H)
    as (m & rest & g1 & g2 & -> & Hd & Hm & ->).
  injection Hm as <-. rewrite app_nil_r. eauto.
Qed.

(** A text that begins with a part of the shape of [r] is matched by [r]
    at its start: backtracking misses no match. *)
Lemma match_here_complete (r : regex) :
  forall m g, denotes r m g ->
  forall rest, exists g', match_here r (m ++ rest)%string = Some g'.
Proof.
  induction r as [|n r' IH]; cbn [denotes match_here].
  - intros m g _ rest. eauto.
  - destruct n as [a|a|a|a]; cbn [denotes match_here].
    + intros m g (c & t & -> & Ea & Hd) rest. simpl. rewrite Ea. eauto.
    + intros m g (u & t & -> & Hu & Hd) rest. rewrite append_assoc.
      destruct (IH t g Hd rest) as [g0 H0].
      generalize dependent (t ++ rest)%string. clear Hd. intros s H0.
      set (star := fix star (s : string) : option (list string) := _).
      assert (Hfall : exists g', star s = Some g').
      { destruct s as [|c s]; simpl; [eauto|].
        destruct (atom_matches a c); [|eauto].
        destruct (star s); eauto. }
      induction u as [|c u IHu]; [exact Hfall|].
      simpl in Hu. apply andb_prop in Hu. destruct Hu as [Ea Hu].
      destruct (IHu Hu) as [g1 H1].
      exists g1. simpl. rewrite Ea. fold star. rewrite H1. reflexivity.
    + intros m g (u & t & -> & Hu & Hd) rest. rewrite append_assoc.
      destruct (IH t g Hd rest) as [g0 H0].
      generalize dependent (t ++ rest)%string. clear Hd. intros s H0.
      set (lazy := fix lazy (s : string) : option (list string) := _).
      assert (Hfall : exists g', lazy s = Some g').
      { destruct s as [|c s]; simpl; rewrite H0; eauto. }
      induction u as [|c u IHu]; [exact Hfall|].
      simpl in Hu. apply andb_prop in Hu. destruct Hu as [Ea Hu].
      destruct (IHu Hu) as [g1 H1].
      simpl. destruct (match_here r' (String c (u ++ s))); [eauto|].
      rewrite Ea. fold lazy. eauto.
    + intros m g (u & t & g' & -> & [Hne Hu] & -> & Hd) rest.
      rewrite append_assoc.
      destruct (IH t g' Hd rest) as [g0 H0].
      generalize dependent (t ++ rest)%string. clear Hd. intros s H0.
      set (more := fix more (s : string) : option (string * list string) := _).
      assert (Hfall : exists x, more s = Some x).
      { destruct s as [|c s]; simpl; rewrite H0; [eauto|].
        destruct (atom_matches a c); [|eauto].
        destruct (more s) as [[cap g1]|]; eauto. }
      assert (Hrun : forall u, all_match a u = true ->
                exists x, more (u ++ s)%string = Some x).
      { induction u0 as [|c u0 IHu]; intros Hu0; [exact Hfall|].
        simpl in Hu0. apply andb_prop in Hu0. destruct Hu0 as [Ea Hu0].
        destruct (IHu Hu0) as [[cap g1] H1].
        simpl. rewrite Ea. fold more. rewrite H1. eauto. }
      destruct u as [|c u]; [congruence|].
      simpl in Hu. apply andb_prop in Hu. destruct Hu as [Ea Hu].
      destruct (Hrun u Hu) as [[cap g1] H1].
      simpl. rewrite Ea. fold more. rewrite H1. eauto.
Qed.

(** [search]: a result comes from a place where the text has the shape of
    the pattern, and an occurrence anywhere gives a result. *)
Lemma search_sound r :
  forall s g, search r s = Some g ->
  exists pre m rest, s = (pre ++ m ++ rest)%string /\ denotes r m g.
Proof.
  induction s as [|c s IHs]; intros g H; simpl in H.
  - destruct (match_here r ""%string) eqn:E; [|discriminate].
    injection H as <-. apply match_here_sound in E.
    destruct E as (m & rest & Hs & Hd). exists EmptyString, m, rest. auto.
  - destruct (match_here r (String c s)) eqn:E.
    + injection H as <-. apply match_here_sound in E.
      destruct E as (m & rest & Hs & Hd). exists EmptyString, m, rest. auto.
    + destruct (IHs g H) as (pre & m & rest & -> & Hd).
      exists (String c pre), m, rest. auto.
Qed.

Lemma search_complete r m g :
  denotes r m g ->
  forall pre rest, exists g', search r (pre ++ m ++ rest)%string = Some g'.
Proof.
  intros Hd pre rest.
  destruct (match_here_complete r m g Hd rest) as [g0 H0].
  induction pre as [|c pre IH]; simpl.
  - destruct (m ++ rest)%string; simpl in *; rewrite H0; eauto.
  - destruct (match_here r (String c (pre ++ m ++ rest))); eauto.
Qed.

(** ** The shapes of the three patterns *)

Lemma denotes_lit w (r : regex) :
  forall m g,
    denotes (lit w ++ r)%list m g <->
    exists t, m = (w ++ t)%string /\ denotes r t g.
Proof.
  induction w as [|x w IH]; intros m g; cbn [lit app denotes].
  - split; [intros H; exists m; auto | intros (t & -> & H); exact H].
  - split.
    + intros (c & t & -> & Ec & Hd). apply Ascii.eqb_eq in Ec. subst c.
      apply IH in Hd. destruct Hd as (t' & -> & Hd). exists t'. auto.
    + intros (t & -> & Hd). exists x, (w ++ t)%string.
      repeat split; [apply Ascii.eqb_refl | apply IH; eauto].
Qed.

Lemma denotes_last_group a m g :
  denotes [GroupPlus a] m g <-> capture_of a m /\ g = [m].
Proof.
  cbn [denotes]. split.
  - intros (u & t & g' & -> & Hc & -> & -> & ->).
    rewrite append_empty_r. auto.
  - intros [Hc ->]. exists m, EmptyString, []. rewrite append_empty_r. auto.
Qed.

Lemma denotes_two_word w1 w2 m g :
  denotes (two_word_re w1 w2) m g <-> two_word_figure w1 w2 m (group1 g) /\ g = [group1 g].
Proof.
  unfold two_word_re, two_word_figure. split.
  - intros H. apply denotes_lit in H. destruct H as (t1 & -> & H).
    cbn [app denotes] in H. destruct H as (ws1 & t2 & -> & Hs1 & H).
    apply denotes_lit in H. destruct H as (t3 & -> & H).
    cbn [app denotes] in H. destruct H as (ws2 & t4 & -> & Hs2 & H).
    apply denotes_lit in H. destruct H as (t5 & -> & H).
    apply denotes_last_group in H. destruct H as [Hc ->].
    split; [|reflexivity]. exists ws1, ws2. auto.
  - intros [(ws1 & ws2 & -> & Hs1 & Hs2 & Hc) Hg].
    apply denotes_lit. eexists; split; [reflexivity|].
    cbn [app denotes]. exists ws1. eexists; repeat split; [exact Hs1|].
    apply denotes_lit. eexists; split; [reflexivity|].
    cbn [app denotes]. exists ws2. eexists; repeat split; [exact Hs2|].
    apply denotes_lit. eexists; split; [reflexivity|].
    apply denotes_last_group. auto.
Qed.

Lemma denotes_op m g :
  denotes op_re m g <->
  (exists mid, growth_figure m mid (group1 g)) /\ g = [group1 g].
Proof.
  unfold op_re, growth_figure. split.
  - intros H. apply denotes_lit in H. destruct H as (t1 & -> & H).
    cbn [app denotes] in H. destruct H as (ws1 & t2 & -> & Hs1 & H).
    apply denotes_lit in H. destruct H as (t3 & -> & H).
    cbn [app denotes] in H. destruct H as (ws2 & t4 & -> & Hs2 & H).
    apply denotes_lit in H. destruct H as (t5 & -> & H).
    cbn [app denotes] in H. destruct H as (mid & t6 & -> & Hmid & H).
    apply denotes_lit in H. destruct H as (t7 & -> & H).
    apply denotes_last_group in H. destruct H as [Hc ->].
    split; [|reflexivity]. exists mid, ws1, ws2. auto.
  - intros [(mid & ws1 & ws2 & -> & Hs1 & Hs2 & Hmid & Hc) Hg].
    apply denotes_lit. eexists; split; [reflexivity|].
    cbn [app denotes]. exists ws1. eexists; repeat split; [exact Hs1|].
    apply denotes_lit. eexists; split; [reflexivity|].
    cbn [app denotes]. exists ws2. eexists; repeat split; [exact Hs2|].
    apply denotes_lit. eexists; split; [reflexivity|].
    cbn [app denotes]. exists mid. eexists; repeat split; [exact Hmid|].
    apply denotes_lit. eexists; split; [reflexivity|].
    apply denotes_last_group. auto.
Qed.

Lemma search_found_iff r text :
  (exists g, search r text = Some g) <->
  (exists pre m rest g,
     text = (pre ++ m ++ rest)%string /\ denotes r m g).
Proof.
  split.
  - intros [g H]. apply search_sound in H.
    destruct H as (pre & m & rest & Hs & Hd). exists pre, m, rest, g. auto.
  - intros (pre & m & rest & g & -> & Hd).
    apply (search_complete r m g Hd).
Qed.

Lemma two_word_found_iff w1 w2 text :
  (exists g, search (two_word_re w1 w2) text = Some g) <->
  (exists pre m c rest,
     text = (pre ++ m ++ rest)%string /\ two_word_figure w1 w2 m c).
Proof.
  rewrite search_found_iff. split.
  - intros (pre & m & rest & g & Hs & Hd). apply denotes_two_word in Hd.
    destruct Hd as [Hf _]. exists pre, m, (group1 g), rest. auto.
  - intros (pre & m & c & rest & Hs & Hf). exists pre, m, rest, [c].
    split; [exact Hs|]. apply denotes_two_word. auto.
Qed.

(** The last group of a pattern is greedy to the end: it takes the whole
    run of characters of its class. *)
Lemma match_here_last_group a :
  forall s g,
    match_here [GroupPlus a] s = Some g ->
    exists c rest,
      s = (c ++ rest)%string /\ g = [c] /\ capture_of a c /\
      starts_with a rest = false.
Proof.
  cbn [match_here].
  set (more := fix more (s : string) : option (string * list string) := _).
  assert (Hmore : forall s cap g, more s = Some (cap, g) ->
            exists rest, s = (cap ++ rest)%string /\ g = [] /\
                         all_match a cap = true /\ starts_with a rest = false).
  { induction s as [|c s IHs]; intros cap g H; simpl in H.
    - injection H as <- <-. exists EmptyString. auto.
    - destruct (atom_matches a c) eqn:Ea.
      + destruct (more s) as [[cap' g']|] eqn:Em.
        * injection H as <- <-.
          destruct (IHs cap' g' eq_refl) as (rest & -> & -> & Hc & Hr).
          exists rest. simpl. rewrite Ea, Hc. auto.
        * injection H as <- <-. exists (String c s). simpl.
          destruct s; simpl in Em; try discriminate.
          destruct (atom_matches a a0); [|discriminate].
          destruct (more s); [destruct p|]; discriminate.
      + injection H as <- <-. exists (String c s). simpl. auto. }
  intros [|c s] g H; [discriminate|].
  destruct (atom_matches a c) eqn:Ea; [|discriminate].
  destruct (more s) as [[cap g']|] eqn:Em; [|discriminate].
  injection H as <-.
  destruct (Hmore s cap g' Em) as (rest & -> & -> & Hc & Hr).
  exists (String c cap), rest. repeat split; auto.
  - discriminate.
  - simpl. rewrite Ea, Hc. reflexivity.
Qed.

Lemma match_here_last_group_none a s :
  match_here [GroupPlus a] s = None -> starts_with a s = false.
Proof.
  cbn [match_here].
  set (more := fix more (s : string) : option (string * list string) := _).
  assert (Hmore : forall s, more s <> None).
  { induction s0 as [|c s0 IHs]; simpl; [discriminate|].
    destruct (atom_matches a c); [|discriminate].
    destruct (more s0) as [[cap g]|]; discriminate. }
  destruct s as [|c s]; [reflexivity|]. simpl.
  destruct (atom_matches a c); [|reflexivity].
  specialize (Hmore s). destruct (more s) as [[cap g]|]; [discriminate|].
  congruence.
Qed.

Lemma search_app_sound (r1 r2 : regex) :
  forall s g,
    search (r1 ++ r2)%list s = Some g ->
    exists pre m rest g1 g2,
      s = (pre ++ m ++ rest)%string /\ denotes r1 m g1 /\
      match_here r2 rest = Some g2 /\ g = (g1 ++ g2)%list.
Proof.
  assert (Hhere : forall s g, match_here (r1 ++ r2)%list s = Some g ->
            exists pre m rest g1 g2,
              s = (pre ++ m ++ rest)%string /\ denotes r1 m g1 /\
              match_here r2 rest = Some g2 /\ g = (g1 ++ g2)%list).
  { intros s g H. apply match_here_app_sound in H.
    destruct H as (m & rest & g1 & g2 & Hs & H).
    exists EmptyString, m, rest, g1, g2. auto. }
  induction s as [|c s IHs]; intros g H; simpl in H.
  - destruct (match_here (r1 ++ r2)%list ""%string) eqn:E; [|discriminate].
    injection H as <-. auto.
  - destruct (match_here (r1 ++ r2)%list (String c s)) eqn:E.
    + injection H as <-. auto.
    + destruct (IHs g H) as (pre & m & rest & g1 & g2 & -> & H').
      exists (String c pre), m, rest, g1, g2. auto.
Qed.

Lemma two_word_re_split w1 w2 :
  two_word_re w1 w2 =
  ((lit w1 ++ [Star Space] ++ lit w2 ++ [Star Space] ++ lit "$" ++ [])
   ++ [GroupPlus NumChar])%list.
Proof. unfold two_word_re. rewrite <- !app_assoc. reflexivity. Qed.

Lemma two_word_search_shape w1 w2 text g :
  search (two_word_re w1 w2) text = Some g ->
  exists pre ws1 ws2 rest,
    text = (pre ++ w1 ++ ws1 ++ w2 ++ ws2 ++ "$" ++ group1 g ++ rest)%string /\
    all_match Space ws1 = true /\ all_match Space ws2 = true /\
    capture_of NumChar (group1 g) /\ starts_with NumChar rest = false.
Proof.
  rewrite two_word_re_split. intros H. apply search_app_sound in H.
  destruct H as (pre & m & rest0 & g1 & g2 & -> & Hd & Hm & ->).
  apply denotes_lit in Hd. destruct Hd as (t1 & -> & Hd).
  cbn [app denotes] in Hd. destruct Hd as (ws1 & t2 & -> & Hs1 & Hd).
  apply denotes_lit in Hd. destruct Hd as (t3 & -> & Hd).
  cbn [app denotes] in Hd. destruct Hd as (ws2 & t4 & -> & Hs2 & Hd).
  apply denotes_lit in Hd. destruct Hd as (t5 & -> & Hd).
  cbn [denotes] in Hd. destruct Hd as [-> ->].
  apply match_here_last_group in Hm.
  destruct Hm as (c & rest & -> & -> & Hc & Hr).
  exists pre, ws1, ws2, rest. cbn [app group1 hd].
  repeat split; try assumption; try apply Hc.
  rewrite !append_assoc. reflexivity.
Qed.

Lemma match_here_one a (r : regex) c s :
  match_here (One a :: r) (String c s) =
  if atom_matches a c then match_here r s else None.
Proof. reflexivity. Qed.

(** The lazy [.*?] before the dollar sign stops at the first dollar sign
    of the line that a digit or a point follows. *)
Lemma match_here_lazy_figure :
  forall s g,
    match_here (StarLazy Dot :: lit "$" ++ [GroupPlus NumChar])%list s = Some g ->
    exists mid c rest,
      s = (mid ++ "$" ++ c ++ rest)%string /\ g = [c] /\
      all_match Dot mid = true /\ no_figure (mid ++ "$") = true /\
      capture_of NumChar c /\ starts_with NumChar rest = false.
Proof.
  assert (Hhere : forall s g,
            match_here (lit "$" ++ [GroupPlus NumChar])%list s = Some g ->
            exists c rest,
              s = ("$" ++ c ++ rest)%string /\ g = [c] /\
              capture_of NumChar c /\ starts_with NumChar rest = false).
  { intros s g H. cbn [lit app] in H.
    destruct s as [|x s]; [discriminate|].
    rewrite match_here_one in H. cbn [atom_matches] in H.
    destruct (Ascii.eqb x "$") eqn:Ex; [|discriminate].
    apply Ascii.eqb_eq in Ex. subst x.
    apply match_here_last_group in H.
    destruct H as (c & rest & -> & -> & Hc & Hr). exists c, rest. auto. }
  assert (Hnone : forall x s,
            match_here (lit "$" ++ [GroupPlus NumChar])%list (String x s) = None ->
            negb (Ascii.eqb x "$" && starts_with NumChar s) = true).
  { intros x s H. cbn [lit app] in H.
    rewrite match_here_one in H. cbn [atom_matches] in H.
    destruct (Ascii.eqb x "$"); [|reflexivity].
    apply match_here_last_group_none in H. rewrite H. reflexivity. }
  cbn [match_here].
  induction s as [|x s IHs]; intros g H.
  - destruct (match_here (lit "$" ++ [GroupPlus NumChar])%list ""%string)
      eqn:E; [|discriminate].
    injection H as <-. destruct (Hhere _ _ E) as (c & rest & Hs & _).
    discriminate.
  - destruct (match_here (lit "$" ++ [GroupPlus NumChar])%list (String x s))
      eqn:E.
    + injection H as <-.
      destruct (Hhere _ _ E) as (c & rest & Hs & -> & Hc & Hr).
      exists EmptyString, c, rest. repeat split; auto; apply Hc.
    + destruct (atom_matches Dot x) eqn:Ex; [|discriminate].
      destruct (IHs g H) as (mid & c & rest & -> & -> & Hmid & Hnf & Hc & Hr).
      exists (String x mid), c, rest. repeat split; auto; try apply Hc.
      * cbn [all_match]. rewrite Ex, Hmid. reflexivity.
      * apply Hnone in E. change (String x mid ++ "$")%string
          with (String x (mid ++ "$")). cbn [no_figure]. rewrite Hnf.
        replace (starts_with NumChar (mid ++ "$"))
          with (starts_with NumChar (mid ++ "$" ++ c ++ rest)).
        { rewrite E. reflexivity. }
        destruct mid; reflexivity.
Qed.

Lemma op_re_split :
  op_re =
  ((lit "Operating" ++ [Star Space] ++ lit "income" ++ [Star Space]
    ++ lit "grew" ++ [])
   ++ (StarLazy Dot :: lit "$" ++ [GroupPlus NumChar]))%list.
Proof. reflexivity. Qed.

Lemma op_search_shape text g :
  search op_re text = Some g ->
  exists pre ws1 ws2 mid rest,
    text = (pre ++ "Operating" ++ ws1 ++ "income" ++ ws2 ++ "grew" ++ mid
            ++ "$" ++ group1 g ++ rest)%string /\
    all_match Space ws1 = true /\ all_match Space ws2 = true /\
    all_match Dot mid = true /\ no_figure (mid ++ "$") = true /\
    capture_of NumChar (group1 g) /\ starts_with NumChar rest = false.
Proof.
  rewrite op_re_split. intros H. apply search_app_sound in H.
  destruct H as (pre & m & rest0 & g1 & g2 & -> & Hd & Hm & ->).
  apply denotes_lit in Hd. destruct Hd as (t1 & -> & Hd).
  cbn [app denotes] in Hd. destruct Hd as (ws1 & t2 & -> & Hs1 & Hd).
  apply denotes_lit in Hd. destruct Hd as (t3 & -> & Hd).
  cbn [app denotes] in Hd. destruct Hd as (ws2 & t4 & -> & Hs2 & Hd).
  apply denotes_lit in Hd. destruct Hd as (t5 & -> & Hd).
  cbn [denotes] in Hd. destruct Hd as [-> ->].
  apply match_here_lazy_figure in Hm.
  destruct Hm as (mid & c & rest & -> & -> & Hmid & Hnf & Hc & Hr).
  exists pre, ws1, ws2, mid, rest. cbn [app group1 hd].
  repeat split; try assumption; try apply Hc.
  rewrite !append_assoc. reflexivity.
Qed.

(** ** From the shape of a text to the result of the search *)

Lemma match_here_lit w (r : regex) t :
  match_here (lit w ++ r)%list (w ++ t)%string = match_here r t.
Proof.
  induction w as [|x w IH]; [reflexivity|].
  cbn [lit app]. change (String x w ++ t)%string with (String x (w ++ t)).
  rewrite match_here_one. cbn [atom_matches]. rewrite Ascii.eqb_refl.
  exact IH.
Qed.

Lemma match_here_star_run a (r : regex) u t g :
  all_match a u = true -> starts_with a t = false ->
  match_here r t = Some g ->
  match_here (Star a :: r) (u ++ t)%string = Some g.
Proof.
  intros Hu Ht Hm. cbn [match_here].
  set (star := fix star (s : string) : option (list string) := _).
  induction u as [|c u IHu].
  - destruct t as [|c t]; simpl; [exact Hm|].
    simpl in Ht. rewrite Ht. exact Hm.
  - simpl in Hu. apply andb_prop in Hu. destruct Hu as [Ea Hu].
    simpl. rewrite Ea. fold star. rewrite (IHu Hu). reflexivity.
Qed.

Lemma match_here_group_run a c rest :
  capture_of a c -> starts_with a rest = false ->
  match_here [GroupPlus a] (c ++ rest)%string = Some [c].
Proof.
  intros [Hne Hc] Hr. cbn [match_here].
  set (more := fix more (s : string) : option (string * list string) := _).
  assert (Hmore : forall u, all_match a u = true ->
            more (u ++ rest)%string = Some (u, [])).
  { induction u as [|x u IHu]; intros Hu.
    - destruct rest as [|x rest]; simpl; [reflexivity|].
      simpl in Hr. rewrite Hr. reflexivity.
    - simpl in Hu. apply andb_prop in Hu. destruct Hu as [Ea Hu].
      simpl. rewrite Ea. fold more. rewrite (IHu Hu). reflexivity. }
  destruct c as [|x c]; [congruence|].
  simpl in Hc. apply andb_prop in Hc. destruct Hc as [Ea Hc].
  simpl. rewrite Ea. fold more. rewrite (Hmore c Hc). reflexivity.
Qed.

Lemma match_here_lazy a (r : regex) s :
  match_here (StarLazy a :: r) s =
  match match_here r s with
  | Some g => Some g
  | None =>
      match s with
      | String c s' =>
          if atom_matches a c then match_here (StarLazy a :: r) s' else None
      | EmptyString => None
      end
  end.
Proof. destruct s; reflexivity. Qed.

Lemma match_here_lazy_run mid c rest :
  all_match Dot mid = true -> no_figure (mid ++ "$") = true ->
  capture_of NumChar c -> starts_with NumChar rest = false ->
  match_here (StarLazy Dot :: lit "$" ++ [GroupPlus NumChar])%list
             (mid ++ "$" ++ c ++ rest)%string = Some [c].
Proof.
  intros Hmid Hnf Hc Hr.
  assert (Hend : match_here (lit "$" ++ [GroupPlus NumChar])%list
                   ("$" ++ c ++ rest)%string = Some [c]).
  { rewrite match_here_lit. apply match_here_group_run; assumption. }
  induction mid as [|x mid IH].
  - rewrite match_here_lazy. change ("" ++ "$" ++ c ++ rest)%string
      with ("$" ++ c ++ rest)%string. rewrite Hend. reflexivity.
  - simpl in Hmid. apply andb_prop in Hmid. destruct Hmid as [Ex Hmid].
    change (String x mid ++ "$")%string with (String x (mid ++ "$")) in Hnf.
    cbn [no_figure] in Hnf. apply andb_prop in Hnf. destruct Hnf as [Hx Hnf].
    specialize (IH Hmid Hnf).
    assert (Hfail : match_here (lit "$" ++ [GroupPlus NumChar])%list
                      (String x (mid ++ "$" ++ c ++ rest)) = None).
    { cbn [lit app]. rewrite match_here_one. cbn [atom_matches].
      destruct (Ascii.eqb x "$"); [|reflexivity].
      simpl in Hx. apply negb_true_iff in Hx.
      destruct (match_here [GroupPlus NumChar] (mid ++ "$" ++ c ++ rest))
        eqn:E; [|reflexivity].
      apply match_here_last_group in E.
      destruct E as (c' & rest' & Hs & _ & [Hne Hc'] & _).
      destruct c' as [|y c']; [congruence|]. simpl in Hc'.
      apply andb_prop in Hc'. destruct Hc' as [Hy _].
      destruct mid as [|z mid]; simpl in Hs, Hx;
        injection Hs as E1 _; subst y; simpl in Hy; congruence. }
    change (String x mid ++ "$" ++ c ++ rest)%string
      with (String x (mid ++ "$" ++ c ++ rest)).
    rewrite match_here_lazy, Hfail. cbn [atom_matches]. rewrite Ex. exact IH.
Qed.

Lemma search_here r s g : match_here r s = Some g -> search r s = Some g.
Proof. intros H. destruct s; simpl; rewrite H; reflexivity. Qed.

(** A pattern that begins with the letter [x] matches nowhere in a text
    without [x]. *)
Lemma search_skip x (r : regex) pre s :
  occurs x pre = false ->
  search (One (Char x) :: r) (pre ++ s)%string = search (One (Char x) :: r) s.
Proof.
  induction pre as [|c pre IH]; intros H; [reflexivity|].
  simpl in H. apply orb_false_iff in H. destruct H as [Hc H].
  change (String c pre ++ s)%string with (String c (pre ++ s)).
  cbn [search]. rewrite match_here_one. cbn [atom_matches]. rewrite Hc.
  apply IH, H.
Qed.

(** ** Signs of the two ratios *)

Lemma div_core_nonneg m1 e1 m2 e2 :
  0 <= fst (fst (SFdiv_core_binary prec emax (Zpos m1) e1 (Zpos m2) e2)).
Proof.
  unfold SFdiv_core_binary.
  set (e' := Z.min _ _).
  set (m' := match e1 - e2 - e' with Z0 => _ | _ => _ end).
  assert (Hm : 0 <= m').
  { subst m'. destruct (e1 - e2 - e') as [|k|k]; try lia.
    rewrite Z.shiftl_mul_pow2 by lia. apply Z.mul_nonneg_nonneg; [lia|].
    apply Z.pow_nonneg; lia. }
  pose proof (Z.div_pos m' (Zpos m2) Hm ltac:(lia)) as Hq.
  unfold Z.div in Hq.
  destruct (Z.div_eucl m' (Zpos m2)) as [d r]. exact Hq.
Qed.

Lemma nonneg_cases x :
  nonneg x = true ->
  (exists s, x = S754_zero s) \/ x = S754_infinity false \/
  (exists m e, x = S754_finite false m e).
Proof.
  destruct x as [s|[]| |[] m e]; simpl; try discriminate; eauto.
Qed.

Lemma div_nonneg a b :
  nonneg a = true -> nonneg b = true -> is_zero b = false ->
  (a = S754_infinity false /\ b = S754_infinity false /\ div a b = S754_nan) \/
  (~ (a = S754_infinity false /\ b = S754_infinity false) /\
   nonneg (div a b) = true).
Proof.
  intros Ha Hb Hz.
  destruct (nonneg_cases a Ha) as [[s ->]|[->|(m & e & ->)]];
    destruct (nonneg_cases b Hb) as [[s' ->]|[->|(m' & e' & ->)]];
    try discriminate;
    try (left; repeat split; reflexivity);
    right; (split; [intros [? ?]; discriminate|]);
    try (destruct s; reflexivity); try reflexivity.
  unfold div, SFdiv.
  pose proof (div_core_nonneg m e m' e') as Hq.
  destruct (SFdiv_core_binary prec emax (Zpos m) e (Zpos m') e')
    as [[mz ez] lz].
  apply binary_round_aux_nonneg, Hq.
Qed.

Lemma mul_f100_nonneg x : nonneg x = true -> nonneg (mul x f100) = true.
Proof.
  intros Hx.
  assert (E : f100 = S754_finite false 7036874417766400 (-46))
    by (vm_compute; reflexivity).
  rewrite E.
  destruct (nonneg_cases x Hx) as [[s ->]|[->|(m & e & ->)]].
  - destruct s; reflexivity.
  - reflexivity.
  - unfold mul, SFmul. apply binary_round_aux_nonneg. lia.
Qed.

Lemma round2_nonneg x : nonneg x = true -> nonneg (round2 x) = true.
Proof.
  intros Hx.
  destruct (nonneg_cases x Hx) as [[s ->]|[->|(m & e & ->)]];
    try exact Hx.
  unfold round2.
  destruct (match e with Zneg k => _ | _ => _ end) as [p q].
  destruct (round_half_even p q); try reflexivity. apply nearest_nonneg.
Qed.

Lemma ratio_sign a b :
  nonneg a = true -> nonneg b = true -> is_zero b = false ->
  (a = S754_infinity false /\ b = S754_infinity false /\
   round2 (mul (div a b) f100) = S754_nan) \/
  (~ (a = S754_infinity false /\ b = S754_infinity false) /\
   nonneg (round2 (mul (div a b) f100)) = true).
Proof.
  intros Ha Hb Hz.
  destruct (div_nonneg a b Ha Hb Hz) as [(-> & -> & E)|[Hn Hd]].
  - left. rewrite E. repeat split; reflexivity.
  - right. split; [exact Hn|]. apply round2_nonneg, mul_f100_nonneg, Hd.
Qed.

(** ** Further lemmas on captures and on errors *)

Lemma two_word_match_exact w1 y w2' ws1 ws2 c rest :
  is_space y = false ->
  all_match Space ws1 = true -> all_match Space ws2 = true ->
  capture_of NumChar c -> starts_with NumChar rest = false ->
  match_here (two_word_re w1 (String y w2'))
    (w1 ++ ws1 ++ String y w2' ++ ws2 ++ "$" ++ c ++ rest)%string = Some [c].
Proof.
  intros Hy Hs1 Hs2 Hc Hr. unfold two_word_re.
  rewrite match_here_lit. cbn [app].
  apply match_here_star_run; [exact Hs1 | exact Hy |].
  rewrite match_here_lit. cbn [app].
  apply match_here_star_run; [exact Hs2 | reflexivity |].
  rewrite match_here_lit. apply match_here_group_run; assumption.
Qed.

Lemma two_word_search_exact x w1' y w2' pre ws1 ws2 c rest :
  occurs x pre = false -> is_space y = false ->
  all_match Space ws1 = true -> all_match Space ws2 = true ->
  capture_of NumChar c -> starts_with NumChar rest = false ->
  search (two_word_re (String x w1') (String y w2'))
    (pre ++ String x w1' ++ ws1 ++ String y w2' ++ ws2 ++ "$" ++ c ++ rest)%string
  = Some [c].
Proof.
  intros Hx Hy Hs1 Hs2 Hc Hr.
  pose proof (two_word_match_exact (String x w1') y w2' ws1 ws2 c rest
                Hy Hs1 Hs2 Hc Hr) as Hm.
  apply search_here in Hm. rewrite <- Hm.
  unfold two_word_re. cbn [lit app]. apply search_skip, Hx.
Qed.

Lemma search_none_without x (r : regex) s :
  occurs x s = false -> search (One (Char x) :: r) s = None.
Proof.
  intros H. rewrite <- (append_empty_r s).
  rewrite (search_skip x r s EmptyString H). reflexivity.
Qed.




Lemma float_of_str_error s e :
  float_of_str s = inl e -> e = ValueError (float_error s).
Proof.
  unfold float_of_str, float_error.
  destruct (scan s 0 0 None) as [[[n nd] k]|].
  - destruct (nd =? 0)%N; [|discriminate]. intros H; injection H as <-.
    reflexivity.
  - intros H; injection H as <-. reflexivity.
Qed.

Lemma float_of_str_invalid s :
  all_match NumChar s = true -> ~ valid_numeral s ->
  float_of_str s = inl (ValueError (float_error s)).
Proof.
  intros Hall Hn. destruct (float_of_str s) as [e|v] eqn:E.
  - apply float_of_str_error in E. subst e. reflexivity.
  - exfalso. apply Hn. apply (float_of_str_valid s Hall). eauto.
Qed.

Lemma extract_rev_error text e :
  captured (search rev_re text) f281_7 = inl e -> extract text = inl e.
Proof. intros H. unfold extract. rewrite H. reflexivity. Qed.

Lemma extract_op_error text rev e :
  captured (search rev_re text) f281_7 = inr rev ->
  captured (search op_re text) f128_5 = inl e -> extract text = inl e.
Proof. intros H1 H2. unfold extract. rewrite H1, H2. reflexivity. Qed.

Lemma extract_az_error text rev op e :
  captured (search rev_re text) f281_7 = inr rev ->
  captured (search op_re text) f128_5 = inr op ->
  captured (search az_re text) f75_0 = inl e -> extract text = inl e.
Proof. intros H1 H2 H3. unfold extract. rewrite H1, H2, H3. reflexivity. Qed.

Lemma extract_errors text e :
  extract text = inl e ->
  e = ZeroDivisionError \/ exists c, e = ValueError (float_error c).
Proof.
  unfold extract.
  assert (Hcap : forall m d e', captured m d = inl e' ->
            exists c, e' = ValueError (float_error c)).
  { intros [g|] d e' H; simpl in H; [|discriminate].
    apply float_of_str_error in H. eauto. }
  destruct (captured (search rev_re text) f281_7) as [e1|rev] eqn:E1.
  { intros H; injection H as <-. right. eapply Hcap, E1. }
  destruct (captured (search op_re text) f128_5) as [e2|op] eqn:E2.
  { intros H; injection H as <-. right. eapply Hcap, E2. }
  destruct (captured (search az_re text) f75_0) as [e3|az] eqn:E3.
  { intros H; injection H as <-. right. eapply Hcap, E3. }
  simpl. unfold truediv. destruct (is_zero rev); simpl; [|discriminate].
  intros H; injection H as <-. left. reflexivity.
Qed.

Lemma op_search_exact pre ws1 ws2 mid c rest :
  occurs "O" pre = false ->
  all_match Space ws1 = true -> all_match Space ws2 = true ->
  all_match Dot mid = true -> no_figure (mid ++ "$") = true ->
  capture_of NumChar c -> starts_with NumChar rest = false ->
  search op_re
    (pre ++ "Operating" ++ ws1 ++ "income" ++ ws2 ++ "grew" ++ mid
     ++ "$" ++ c ++ rest)%string = Some [c].
Proof.
  intros Hpre Hs1 Hs2 Hmid Hnf Hc Hr.
  assert (Hm : match_here op_re
                 ("Operating" ++ ws1 ++ "income" ++ ws2 ++ "grew" ++ mid
                  ++ "$" ++ c ++ rest)%string = Some [c]).
  { unfold op_re. rewrite match_here_lit. cbn [app].
    apply match_here_star_run; [exact Hs1 | reflexivity |].
    rewrite match_here_lit. cbn [app].
    apply match_here_star_run; [exact Hs2 | reflexivity |].
    rewrite match_here_lit. cbn [app].
    apply match_here_lazy_run; assumption. }
  apply search_here in Hm. rewrite <- Hm.
  apply (search_skip "O" _ pre _ Hpre).
Qed.

(** ** Further properties of [load_data] *)

(** X1: each of the three searches finds a match exactly when the text
    holds, somewhere, the shape of its pattern: the words, white space (or
    none) after them, for the income any text without a line feed, then a
    dollar sign and at least one digit or point. *)
Theorem patterns_found_iff text :
  ((exists g, search rev_re text = Some g) <->
   (exists pre m c rest,
      text = (pre ++ m ++ rest)%string /\
      two_word_figure "Revenue" "was" m c)) /\
  ((exists g, search op_re text = Some g) <->
   (exists pre m mid c rest,
      text = (pre ++ m ++ rest)%string /\ growth_figure m mid c)) /\
  ((exists g, search az_re text = Some g) <->
   (exists pre m c rest,
      text = (pre ++ m ++ rest)%string /\
      two_word_figure "Azure" "surpassed" m c)).
Proof.
  split; [apply (two_word_found_iff "Revenue" "was")|].
  split; [|apply (two_word_found_iff "Azure" "surpassed")].
  rewrite search_found_iff. split.
  - intros (pre & m & rest & g & Hs & Hd). apply denotes_op in Hd.
    destruct Hd as [[mid Hf] _]. exists pre, m, mid, (group1 g), rest. auto.
  - intros (pre & m & mid & c & rest & Hs & Hf). exists pre, m, rest, [c].
    split; [exact Hs|]. apply denotes_op. split; [|reflexivity]. eauto.
Qed.

Lemma patterns_found_iff_witness :
  exists g, search rev_re "In 2025 Revenuewas $1.2.3, up" = Some g.
Proof.
  apply (proj2 (proj1 (patterns_found_iff "In 2025 Revenuewas $1.2.3, up"))).
  exists "In 2025 "%string, "Revenuewas $1.2.3"%string, "1.2.3"%string,
         ", up"%string.
  split; [reflexivity|].
  exists ""%string, " "%string.
  repeat split; try reflexivity. discriminate.
Defined.

(** X2: what the revenue and the Azure search capture is the whole run of
    digits and points after the dollar sign of a phrase of the text: the
    character after the capture, if any, is neither a digit nor a point. *)
Theorem figure_capture_is_whole_run text g :
  (search rev_re text = Some g ->
   greedy_figure "Revenue" "was" text (group1 g)) /\
  (search az_re text = Some g ->
   greedy_figure "Azure" "surpassed" text (group1 g)).
Proof.
  split; intros H.
  - exact (two_word_search_shape "Revenue" "was" text g H).
  - exact (two_word_search_shape "Azure" "surpassed" text g H).
Qed.

Lemma figure_capture_is_whole_run_witness :
  greedy_figure "Revenue" "was" scenario6 "281.7".
Proof.
  apply (proj1 (figure_capture_is_whole_run scenario6 ["281.7"%string])).
  vm_compute. reflexivity.
Defined.

(** X3: what the income search captures is the whole run of digits and
    points after the first dollar sign followed by a digit or a point that
    comes after "Operating income grew" on the same line. *)
Theorem income_capture_is_first_figure text g :
  search op_re text = Some g -> first_growth_figure text (group1 g).
Proof. apply op_search_shape. Qed.

Lemma income_capture_is_first_figure_witness :
  first_growth_figure "Operating income grew from $x to $128.5 and $99" "128.5".
Proof.
  apply (income_capture_is_first_figure
           "Operating income grew from $x to $128.5 and $99" ["128.5"%string]).
  vm_compute. reflexivity.
Defined.

(** X4: when no "R" (no "A") comes before the phrase, the revenue (the
    Azure) search returns the figure of that phrase: white space of any
    length, or none, between the words, and the figure taken up to the
    first character that is neither a digit nor a point. *)
Theorem figure_search_result pre ws1 ws2 c rest :
  all_match Space ws1 = true -> all_match Space ws2 = true ->
  capture_of NumChar c -> starts_with NumChar rest = false ->
  (occurs "R" pre = false ->
   search rev_re
     (pre ++ "Revenue" ++ ws1 ++ "was" ++ ws2 ++ "$" ++ c ++ rest)%string
   = Some [c]) /\
  (occurs "A" pre = false ->
   search az_re
     (pre ++ "Azure" ++ ws1 ++ "surpassed" ++ ws2 ++ "$" ++ c ++ rest)%string
   = Some [c]).
Proof.
  intros Hs1 Hs2 Hc Hr. split; intros Hpre.
  - apply (two_word_search_exact "R" "evenue" "w" "as"); auto.
  - apply (two_word_search_exact "A" "zure" "s" "urpassed"); auto.
Qed.

Lemma figure_search_result_witness :
  search rev_re "FY25: Revenue  was$281.7 billion" = Some ["281.7"%string].
Proof.
  change (search rev_re
            ("FY25: " ++ "Revenue" ++ "  " ++ "was" ++ "" ++ "$" ++ "281.7"
             ++ " billion")%string = Some ["281.7"%string]).
  apply (figure_search_result "FY25: " "  " "" "281.7" " billion");
    try reflexivity.
  split; [discriminate | reflexivity].
Defined.

(** X5: when no "O" comes before the phrase and no dollar sign between
    "grew" and the figure is followed by a digit or a point, the income
    search returns that figure. *)
Theorem income_search_result pre ws1 ws2 mid c rest :
  occurs "O" pre = false ->
  all_match Space ws1 = true -> all_match Space ws2 = true ->
  all_match Dot mid = true -> no_figure (mid ++ "$") = true ->
  capture_of NumChar c -> starts_with NumChar rest = false ->
  search op_re
    (pre ++ "Operating" ++ ws1 ++ "income" ++ ws2 ++ "grew" ++ mid
     ++ "$" ++ c ++ rest)%string = Some [c].
Proof. apply op_search_exact. Qed.

Lemma income_search_result_witness :
  search op_re "and Operating income grew 17% to $128.5 billion"
  = Some ["128.5"%string].
Proof.
  change (search op_re
            ("and " ++ "Operating" ++ " " ++ "income" ++ " " ++ "grew"
             ++ " 17% to " ++ "$" ++ "128.5" ++ " billion")%string
          = Some ["128.5"%string]).
  apply (income_search_result "and " " " " " " 17% to " "128.5" " billion");
    try reflexivity.
  split; [discriminate | reflexivity].
Defined.

(** X6: [float] accepts what a search has captured exactly when the
    capture has at most one point and at least one digit; "1.2.3", "." and
    ".." are rejected, "5.", ".5" and "007" are accepted. *)
Theorem capture_accepted_iff r text g :
  In r [rev_re; op_re; az_re] -> search r text = Some g ->
  ((exists v, float_of_str (group1 g) = inr v) <-> valid_numeral (group1 g)).
Proof.
  intros Hr Hs. apply float_of_str_valid.
  assert (Hg : group_atoms r = [NumChar])
    by (destruct Hr as [<-|[<-|[<-|[]]]]; reflexivity).
  destruct (one_numeric_group r text g Hg Hs) as [_ [_ Hall]]. exact Hall.
Qed.

Lemma capture_accepted_iff_witness :
  (exists v, float_of_str "281.7" = inr v) <-> valid_numeral "281.7".
Proof.
  apply (capture_accepted_iff rev_re scenario6 ["281.7"%string]).
  - left. reflexivity.
  - vm_compute. reflexivity.
Defined.

(** X7: when a capture is not a valid numeral, [load_data] returns no
    record and the message of the [ValueError] of [float], which quotes
    the capture; the captures are converted in the order revenue, income,
    Azure, and the first that fails gives the message, before any
    division is tried. *)
Theorem invalid_capture_message w text :
  path_exists w = true -> read_text (doc w) = inr text ->
  (forall g,
     search rev_re text = Some g -> ~ valid_numeral (group1 g) ->
     load_data w = (None, Some (float_error (group1 g)))) /\
  (forall rev g,
     captured (search rev_re text) f281_7 = inr rev ->
     search op_re text = Some g -> ~ valid_numeral (group1 g) ->
     load_data w = (None, Some (float_error (group1 g)))) /\
  (forall rev op g,
     captured (search rev_re text) f281_7 = inr rev ->
     captured (search op_re text) f128_5 = inr op ->
     search az_re text = Some g -> ~ valid_numeral (group1 g) ->
     load_data w = (None, Some (float_error (group1 g)))).
Proof.
  intros He Ht. rewrite (load_data_of_text w text He Ht).
  repeat split.
  - intros g Hs Hn.
    rewrite (extract_rev_error text (ValueError (float_error (group1 g))));
      [reflexivity|].
    rewrite Hs. apply float_of_str_invalid; [|exact Hn].
    apply (search_rev_numeric text g Hs).
  - intros rev g H1 Hs Hn.
    rewrite (extract_op_error text rev (ValueError (float_error (group1 g))) H1);
      [reflexivity|].
    rewrite Hs. apply float_of_str_invalid; [|exact Hn].
    apply (search_op_numeric text g Hs).
  - intros rev op g H1 H2 Hs Hn.
    rewrite (extract_az_error text rev op
               (ValueError (float_error (group1 g))) H1 H2); [reflexivity|].
    rewrite Hs. apply float_of_str_invalid; [|exact Hn].
    apply (search_az_numeric text g Hs).
Qed.

Lemma invalid_capture_message_witness :
  load_data (world_of_text "Revenue was $0 Azure surpassed $7..5") =
    (None, Some (float_error "7..5")).
Proof.
  apply (proj2 (proj2 (invalid_capture_message
                         (world_of_text "Revenue was $0 Azure surpassed $7..5")
                         "Revenue was $0 Azure surpassed $7..5"
                         eq_refl eq_refl))
           (S754_zero false) f128_5 ["7..5"%string]);
    try (vm_compute; reflexivity).
  unfold valid_numeral. vm_compute. lia.
Defined.



(** X9: in every record [extract] returns, a figure whose phrase is not
    found has its default, whatever the other two searches find: 281.7
    for the revenue, 128.5 for the income, 75.0 for Azure. *)
Theorem missing_phrase_default text r :
  extract text = inr r ->
  (search rev_re text = None -> Revenue r = f281_7) /\
  (search op_re text = None -> Income r = f128_5) /\
  (search az_re text = None -> Azure r = f75_0).
Proof.
  intros H. apply extract_inversion in H.
  destruct H as (rev & op & az & H1 & H2 & H3 & _ & ->).
  cbn [record_of Revenue Income Azure].
  repeat split; intros Hn.
  - rewrite Hn in H1. injection H1 as <-. reflexivity.
  - rewrite Hn in H2. injection H2 as <-. reflexivity.
  - rewrite Hn in H3. injection H3 as <-. reflexivity.
Qed.

Lemma missing_phrase_default_witness :
  Income (record_of (of_decimal 300 0) f128_5 (of_decimal 90 0)) = f128_5.
Proof.
  apply (proj1 (proj2 (missing_phrase_default
                         "Revenue was $300 and Azure surpassed $90"
                         (record_of (of_decimal 300 0) f128_5 (of_decimal 90 0))
                         ltac:(vm_compute; reflexivity)))).
  vm_compute. reflexivity.
Defined.

Lemma extract_zero_division text :
  extract text = inl ZeroDivisionError ->
  exists rev,
    captured (search rev_re text) f281_7 = inr rev /\ is_zero rev = true.
Proof.
  unfold extract.
  assert (Hcap : forall m d e', captured m d = inl e' ->
            e' <> ZeroDivisionError).
  { intros [g|] d e' H; simpl in H; [|discriminate].
    apply float_of_str_error in H. subst e'. discriminate. }
  destruct (captured (search rev_re text) f281_7) as [e1|rev] eqn:E1.
  { intros H; injection H as ->. exfalso. eapply Hcap; eauto. }
  destruct (captured (search op_re text) f128_5) as [e2|op] eqn:E2.
  { intros H; injection H as ->. exfalso. eapply Hcap; eauto. }
  destruct (captured (search az_re text) f75_0) as [e3|az] eqn:E3.
  { intros H; injection H as ->. exfalso. eapply Hcap; eauto. }
  simpl. unfold truediv. destruct (is_zero rev) eqn:Hz; simpl; [eauto|].
  discriminate.
Qed.

(** X10: [extract] fails in two ways only, a [ValueError] of [float] or
    the division by zero; and when the revenue phrase is not found, the
    default revenue being 281.7, it never fails by the division. *)
Theorem extract_failures text e :
  extract text = inl e ->
  (e = ZeroDivisionError \/ exists c, e = ValueError (float_error c)) /\
  (search rev_re text = None -> e <> ZeroDivisionError).
Proof.
  intros H. split; [apply (extract_errors text e H)|].
  intros Hn ->. apply extract_zero_division in H.
  destruct H as (rev & H1 & Hz). rewrite Hn in H1. injection H1 as <-.
  vm_compute in Hz. discriminate.
Qed.

Lemma extract_failures_witness :
  (ValueError (float_error ".") = ZeroDivisionError \/
   exists c, ValueError (float_error ".") = ValueError (float_error c)) /\
  (search rev_re "Azure surpassed $." = None ->
   ValueError (float_error ".") <> ZeroDivisionError).
Proof.
  apply (extract_failures "Azure surpassed $." (ValueError (float_error "."))).
  vm_compute. reflexivity.
Defined.

(** X11: in every record [extract] returns, Margin and AzureMix are
    [0.0 <= x], except that the ratio is NaN when its numerator and the
    revenue have both overflowed to infinity, and only then. *)
Theorem ratios_nonneg_or_nan text r :
  extract text = inr r ->
  ((Income r = S754_infinity false /\ Revenue r = S754_infinity false /\
    Margin r = S754_nan) \/
   (~ (Income r = S754_infinity false /\ Revenue r = S754_infinity false) /\
    nonneg (Margin r) = true)) /\
  ((Azure r = S754_infinity false /\ Revenue r = S754_infinity false /\
    AzureMix r = S754_nan) \/
   (~ (Azure r = S754_infinity false /\ Revenue r = S754_infinity false) /\
    nonneg (AzureMix r) = true)).
Proof.
  intros H. apply extract_inversion in H.
  destruct H as (rev & op & az & H1 & H2 & H3 & Hz & ->).
  assert (Hrev : nonneg rev = true)
    by (apply (captured_nonneg (search rev_re text) f281_7 rev); [vm_compute; reflexivity | exact H1]).
  assert (Hop : nonneg op = true)
    by (apply (captured_nonneg (search op_re text) f128_5 op); [vm_compute; reflexivity | exact H2]).
  assert (Haz : nonneg az = true)
    by (apply (captured_nonneg (search az_re text) f75_0 az); [vm_compute; reflexivity | exact H3]).
  cbn [record_of Revenue Income Azure Margin AzureMix].
  split; apply ratio_sign; assumption.
Qed.

Lemma ratios_nonneg_or_nan_witness :
  ((Income scenario_record = S754_infinity false /\
    Revenue scenario_record = S754_infinity false /\
    Margin scenario_record = S754_nan) \/
   (~ (Income scenario_record = S754_infinity false /\
       Revenue scenario_record = S754_infinity false) /\
    nonneg (Margin scenario_record) = true)) /\
  ((Azure scenario_record = S754_infinity false /\
    Revenue scenario_record = S754_infinity false /\
    AzureMix scenario_record = S754_nan) \/
   (~ (Azure scenario_record = S754_infinity false /\
       Revenue scenario_record = S754_infinity false) /\
    nonneg (AzureMix scenario_record) = true)).
Proof.
  apply (ratios_nonneg_or_nan scenario6 scenario_record).
  vm_compute. reflexivity.
Defined.



(** X13: the searches are case sensitive and begin with a capital letter:
    a text without "R", "O" and "A" has none of the phrases, and [extract]
    returns the record of the defaults. *)
Theorem no_initials_gives_defaults text :
  occurs "R" text = false -> occurs "O" text = false ->
  occurs "A" text = false ->
  extract text = inr scenario_record.
Proof.
  intros HR HO HA. unfold extract.
  rewrite (search_none_without "R" _ text HR : search rev_re text = None).
  rewrite (search_none_without "O" _ text HO : search op_re text = None).
  rewrite (search_none_without "A" _ text HA : search az_re text = None).
  vm_compute. reflexivity.
Qed.

Lemma no_initials_gives_defaults_witness :
  extract "revenue was $300, operating income grew to $100" =
  inr scenario_record.
Proof.
  apply (no_initials_gives_defaults
           "revenue was $300, operating income grew to $100");
    reflexivity.
Defined.

(** ** Comparisons of floats, and values that are not NaN *)

Lemma float_eq_refl x : is_nan x = false -> float_eq x x = true.
Proof.
  destruct x as [s|s| |s m e]; simpl; try discriminate; intros _.
  - reflexivity.
  - destruct s; reflexivity.
  - unfold float_eq, SFeqb, SFcompare.
    rewrite Z.compare_refl, Pos.compare_cont_refl. destruct s; reflexivity.
Qed.

Lemma nonneg_not_nan x : nonneg x = true -> is_nan x = false.
Proof. destruct x; [reflexivity | reflexivity | discriminate | reflexivity]. Qed.

Lemma binary_round_aux_not_nan s m e l :
  0 <= m -> is_nan (binary_round_aux prec emax s m e l) = false.
Proof.
  intros H. unfold binary_round_aux.
  pose proof (shr_fexp_nonneg m e l H) as H1.
  destruct (shr_fexp prec emax m e l) as [mrs' e']; simpl in H1.
  pose proof (shr_fexp_nonneg _ e' loc_Exact
                (round_nearest_even_nonneg _ (loc_of_shr_record mrs') H1)) as H2.
  destruct (shr_fexp prec emax _ e' loc_Exact) as [mrs'' e'']; simpl in H2.
  destruct (shr_m mrs'') as [|k|k]; try lia; try reflexivity.
  destruct (e'' <=? emax - prec); reflexivity.
Qed.

Lemma binary_normalize_not_nan m e :
  is_nan (binary_normalize prec emax m e false) = false.
Proof.
  unfold binary_normalize, binary_round.
  destruct m as [|p|p]; [reflexivity| |];
    destruct (shl_align p e _) as [mz ez];
    apply binary_round_aux_not_nan; lia.
Qed.

Lemma sub_not_nan a b :
  nonneg a = true -> nonneg b = true -> ~ (a = inf /\ b = inf) ->
  is_nan (sub a b) = false.
Proof.
  intros Ha Hb Hn.
  destruct (nonneg_cases a Ha) as [[s ->]|[->|(m & e & ->)]];
    destruct (nonneg_cases b Hb) as [[s' ->]|[->|(m' & e' & ->)]];
    try reflexivity;
    try (destruct s; reflexivity);
    try (destruct s; destruct s'; reflexivity).
  - exfalso. apply Hn. split; reflexivity.
  - unfold sub, SFsub. apply binary_normalize_not_nan.
Qed.

(** ** The claims on comparisons, on the cache and on a zero revenue *)

(** A revenue that is a valid decimal other than zero and yet too small
    for a float is read as [0.0], and the division raises. *)
Example tiny_revenue_underflows :
  float_of_str tiny = inr (S754_zero false) /\
  extract underflow_text = inl ZeroDivisionError.
Proof. vm_compute. split; reflexivity. Qed.

(** C3, as stated, fails: with an income and a revenue too large for a
    float, [extract] returns a record, its revenue is not zero, and Margin
    is NaN, which [==] finds equal to nothing, not even to
    [round(Income / Revenue * 100, 2)]; the same with Azure for AzureMix. *)
Lemma ratio_comparison_fails_on_nan :
  extract overflow_text = inr overflow_record /\
  is_zero (Revenue overflow_record) = false /\
  float_eq (Margin overflow_record)
    (round2 (mul (div (Income overflow_record) (Revenue overflow_record)) f100))
  = false /\
  float_eq (AzureMix overflow_record)
    (round2 (mul (div (Azure overflow_record) (Revenue overflow_record)) f100))
  = false.
Proof. vm_compute. repeat split; reflexivity. Qed.

(** C3 (amended): in every record [extract] returns, with a revenue that
    is not zero, Margin is the float that [round(Income / Revenue * 100, 2)]
    computes and AzureMix the float that [round(Azure / Revenue * 100, 2)]
    computes; and [Margin == round(Income / Revenue * 100, 2)] holds unless
    Income and Revenue are both [inf], [AzureMix == round(Azure / Revenue *
    100, 2)] unless Azure and Revenue are both [inf]. *)
Theorem ratios_are_rounded text r :
  extract text = inr r -> is_zero (Revenue r) = false ->
  (Margin r = round2 (mul (div (Income r) (Revenue r)) f100) /\
   AzureMix r = round2 (mul (div (Azure r) (Revenue r)) f100)) /\
  (~ (Income r = inf /\ Revenue r = inf) ->
   float_eq (Margin r) (round2 (mul (div (Income r) (Revenue r)) f100)) = true) /\
  (~ (Azure r = inf /\ Revenue r = inf) ->
   float_eq (AzureMix r) (round2 (mul (div (Azure r) (Revenue r)) f100)) = true).
Proof.
  intros H _. apply extract_inversion in H.
  destruct H as (rev & op & az & H1 & H2 & H3 & Hz & ->).
  assert (Hrev : nonneg rev = true)
    by (apply (captured_nonneg (search rev_re text) f281_7 rev);
        [vm_compute; reflexivity | exact H1]).
  assert (Hop : nonneg op = true)
    by (apply (captured_nonneg (search op_re text) f128_5 op);
        [vm_compute; reflexivity | exact H2]).
  assert (Haz : nonneg az = true)
    by (apply (captured_nonneg (search az_re text) f75_0 az);
        [vm_compute; reflexivity | exact H3]).
  cbn [record_of Revenue Income Azure Margin AzureMix].
  split; [split; reflexivity|]. split; intros Hn.
  - destruct (ratio_sign op rev Hop Hrev Hz) as [(-> & -> & _)|[_ Hs]].
    + exfalso. apply Hn. split; reflexivity.
    + apply float_eq_refl, nonneg_not_nan, Hs.
  - destruct (ratio_sign az rev Haz Hrev Hz) as [(-> & -> & _)|[_ Hs]].
    + exfalso. apply Hn. split; reflexivity.
    + apply float_eq_refl, nonneg_not_nan, Hs.
Qed.

Lemma ratios_are_rounded_witness :
  (Margin scenario_record =
     round2 (mul (div (Income scenario_record) (Revenue scenario_record)) f100) /\
   AzureMix scenario_record =
     round2 (mul (div (Azure scenario_record) (Revenue scenario_record)) f100)) /\
  (~ (Income scenario_record = inf /\ Revenue scenario_record = inf) ->
   float_eq (Margin scenario_record)
     (round2 (mul (div (Income scenario_record) (Revenue scenario_record)) f100))
   = true) /\
  (~ (Azure scenario_record = inf /\ Revenue scenario_record = inf) ->
   float_eq (AzureMix scenario_record)
     (round2 (mul (div (Azure scenario_record) (Revenue scenario_record)) f100))
   = true).
Proof.
  apply (ratios_are_rounded scenario6 scenario_record);
    vm_compute; reflexivity.
Defined.

(** C4, as stated, fails: with a revenue and an Azure figure too large for
    a float, [extract] returns a record whose Other is [inf - inf], NaN,
    and [Other == Revenue - Azure] is false. *)
Lemma difference_comparison_fails_on_nan :
  extract overflow_text = inr overflow_record /\
  Other overflow_record = S754_nan /\
  float_eq (Other overflow_record)
    (sub (Revenue overflow_record) (Azure overflow_record)) = false.
Proof. vm_compute. repeat split; reflexivity. Qed.

(** C4 (amended): in every record [extract] returns, Other is the float
    that [Revenue - Azure] computes, with no rounding to two decimals and
    no clamping (it is negative when Azure is above Revenue, see
    [other_negative]); and [Other == Revenue - Azure] holds unless Revenue
    and Azure are both [inf]. *)
Theorem other_is_float_difference text r :
  extract text = inr r ->
  Other r = sub (Revenue r) (Azure r) /\
  (~ (Revenue r = inf /\ Azure r = inf) ->
   float_eq (Other r) (sub (Revenue r) (Azure r)) = true).
Proof.
  intros H. apply extract_inversion in H.
  destruct H as (rev & op & az & H1 & H2 & H3 & Hz & ->).
  assert (Hrev : nonneg rev = true)
    by (apply (captured_nonneg (search rev_re text) f281_7 rev);
        [vm_compute; reflexivity | exact H1]).
  assert (Haz : nonneg az = true)
    by (apply (captured_nonneg (search az_re text) f75_0 az);
        [vm_compute; reflexivity | exact H3]).
  cbn [record_of Revenue Azure Other].
  split; [reflexivity|]. intros Hn.
  apply float_eq_refl, sub_not_nan; assumption.
Qed.

Lemma other_is_float_difference_witness :
  Other scenario_record =
    sub (Revenue scenario_record) (Azure scenario_record) /\
  (~ (Revenue scenario_record = inf /\ Azure scenario_record = inf) ->
   float_eq (Other scenario_record)
     (sub (Revenue scenario_record) (Azure scenario_record)) = true).
Proof.
  apply (other_is_float_difference scenario6 scenario_record).
  vm_compute. reflexivity.
Defined.

(** C6, as stated, fails: after a call that found the report and stored
    its record, a call made when the path no longer exists returns that
    record from the cache, not "Data Source Pending". *)
Lemma missing_path_cached_record :
  load_data_cached None (world_of_text scenario6) =
    ((Some scenario_record, None), Some (Some scenario_record, None)) /\
  path_exists missing_file = false /\
  load_data_cached (Some (Some scenario_record, None)) missing_file =
    ((Some scenario_record, None), Some (Some scenario_record, None)) /\
  invocations None [world_of_text scenario6; missing_file] =
    [(Some scenario_record, None); (Some scenario_record, None)].
Proof. vm_compute. repeat split; reflexivity. Qed.

(** C6 (amended): a call of [load_data()] that finds nothing in the cache,
    made when the path of the report does not exist, returns no record and
    the message "Data Source Pending", and stores that pair in the cache. *)
Theorem missing_path_first_call w :
  path_exists w = false ->
  load_data_cached None w = (pending, Some pending).
Proof.
  intros H. unfold load_data_cached, cache_data, load_data. rewrite H.
  reflexivity.
Qed.

Lemma missing_path_first_call_witness :
  load_data_cached None missing_file = (pending, Some pending).
Proof. apply (missing_path_first_call missing_file). reflexivity. Defined.

(** C10, as stated, fails: the revenue captured here is zero and no record
    is returned, but the message is that of the [ValueError] of the Azure
    capture, raised before the division, not that of a division by zero. *)
Lemma zero_revenue_value_error :
  search rev_re zero_revenue_bad_azure = Some ["0"%string] /\
  float_of_str "0" = inr (S754_zero false) /\
  load_data (world_of_text zero_revenue_bad_azure) =
    (None, Some (float_error "7..5")) /\
  float_error "7..5" <> str ZeroDivisionError.
Proof.
  repeat split; try (vm_compute; reflexivity).
  vm_compute. discriminate.
Qed.

(** C10 (amended): when the revenue pattern captures a numeral that
    [float] reads as zero, a call that reads the text returns no record
    and the text of an exception as its message: that of the division by
    zero when the income and the Azure figure are obtained, and otherwise
    that of the [ValueError] of the first of the two captures that [float]
    rejects, which is raised before the division. *)
Theorem zero_revenue_error w text g v :
  path_exists w = true -> read_text (doc w) = inr text ->
  search rev_re text = Some g -> float_of_str (group1 g) = inr v ->
  is_zero v = true ->
  (exists e, load_data w = (None, Some (str e))) /\
  (forall op az,
     captured (search op_re text) f128_5 = inr op ->
     captured (search az_re text) f75_0 = inr az ->
     load_data w = (None, Some (str ZeroDivisionError))) /\
  (forall e,
     captured (search op_re text) f128_5 = inl e ->
     load_data w = (None, Some (str e))) /\
  (forall op e,
     captured (search op_re text) f128_5 = inr op ->
     captured (search az_re text) f75_0 = inl e ->
     load_data w = (None, Some (str e))).
Proof.
  intros He Ht Hs Hf Hz.
  assert (Hrev : captured (search rev_re text) f281_7 = inr v)
    by (rewrite Hs; exact Hf).
  rewrite (load_data_of_text w text He Ht). repeat split.
  - destruct (extract text) as [e|r] eqn:E; [eauto|].
    apply extract_inversion in E.
    destruct E as (rev & op & az & H1 & _ & _ & Hnz & _).
    rewrite Hrev in H1. injection H1 as ->. congruence.
  - intros op az H2 H3.
    rewrite (extract_zero_revenue text v op az Hrev H2 H3 Hz). reflexivity.
  - intros e H2. rewrite (extract_op_error text v e Hrev H2). reflexivity.
  - intros op e H2 H3.
    rewrite (extract_az_error text v op e Hrev H2 H3). reflexivity.
Qed.

Lemma zero_revenue_error_witness :
  load_data (world_of_text "Revenue was $0") =
    (None, Some (str ZeroDivisionError)).
Proof.
  apply (proj1 (proj2 (zero_revenue_error (world_of_text "Revenue was $0")
                         "Revenue was $0" ["0"%string] (S754_zero false)
                         eq_refl eq_refl eq_refl eq_refl eq_refl))
           f128_5 f75_0);
    reflexivity.
Defined.

(** X14: the cache keeps the result of the first call for the whole
    process: every later call returns it again, whatever has become of the
    report in between, be it a record after the file has gone or "Data
    Source Pending" after the file has appeared. *)
Theorem first_result_is_kept w ws :
  invocations None (w :: ws) = repeat (load_data w) (S (List.length ws)).
Proof.
  cbn [invocations load_data_cached cache_data repeat]. f_equal.
  generalize (load_data w). intros r.
  induction ws as [|w' ws IH]; [reflexivity|].
  cbn [invocations load_data_cached cache_data List.length repeat].
  f_equal. exact IH.
Qed.
